(** * Perplexity research tool: response normalisation, citation
      categorisation, markdown rendering and the auto/research/chat
      fallback policy.

    Shallow embedding of
    [modules/tool-perplexity-search/amplifier_module_tool_perplexity_search/__init__.py]
    (the fallback-capable variant) and of the classifier and normaliser of
    [modules/tool-perplexity-search/__init__.py] (the preset variant).

    Modelling conventions.
    - Python [str] values are Rocq [string]s (byte strings).  [PyStr.lower]
      and [PyStr.upper] change the letters A-Z and a-z only: they are
      [str.lower] and [str.upper] on ASCII strings ([PyStr.isascii]), which
      covers every rule-table entry and trigger word of the source.  Python
      also maps letters beyond ASCII (the Kelvin sign lower-cases to k);
      statements about case are therefore made for ASCII strings.
    - Python [int] is [Z].
    - [getattr(o, name, default)] is modelled with [pyattr]: an attribute is
      missing, present with value [None], or present with a string.
    - Exceptions are explicit: effectful code lives in the monad [M], whose
      results are [Ret v] or [Raise e]; a [try/except] is [try_except].
    - The SDK client is an external collaborator: its two request methods
      are the fields of an [Upstream] record, and every call is logged. *)

From Stdlib Require Import ZArith Ascii DecimalString.
From stdpp Require Import base gmap strings list.

Local Open Scope Z_scope.

(** ** Python string primitives *)

Module PyStr.

Definition empty : string := EmptyString.

(** The one-character string holding a line feed. *)
Definition nl : string := String (ascii_of_nat 10) EmptyString.

Definition lower_ascii (c : ascii) : ascii :=
  let n := nat_of_ascii c in
  if ((65 <=? n)%nat && (n <=? 90)%nat)%bool then ascii_of_nat (n + 32) else c.

(** [s.lower()] for an ASCII [s]: the letters A-Z are lower-cased, every
    other character is kept. *)
Fixpoint lower (s : string) : string :=
  match s with
  | EmptyString => EmptyString
  | String c s' => String (lower_ascii c) (lower s')
  end.

Definition upper_ascii (c : ascii) : ascii :=
  let n := nat_of_ascii c in
  if ((97 <=? n)%nat && (n <=? 122)%nat)%bool then ascii_of_nat (n - 32) else c.

(** [s.upper()] for an ASCII [s]: the letters a-z are upper-cased, every
    other character is kept. *)
Fixpoint upper (s : string) : string :=
  match s with
  | EmptyString => EmptyString
  | String c s' => String (upper_ascii c) (upper s')
  end.

(** [s.isascii()]: every character is below 128. *)
Fixpoint isascii (s : string) : bool :=
  match s with
  | EmptyString => true
  | String c s' => (nat_of_ascii c <? 128)%nat && isascii s'
  end.

(** [hay.startswith(needle)] *)
Fixpoint startswith (needle hay : string) : bool :=
  match needle, hay with
  | EmptyString, _ => true
  | String _ _, EmptyString => false
  | String c needle', String d hay' =>
      bool_decide (c = d) && startswith needle' hay'
  end.

(** [needle in hay] on strings: substring containment. *)
Fixpoint contains (needle hay : string) : bool :=
  startswith needle hay ||
  match hay with
  | EmptyString => false
  | String _ hay' => contains needle hay'
  end.

(** [any(p in s for p in patterns)] *)
Definition any_in (patterns : list string) (s : string) : bool :=
  existsb (fun p => contains p s) patterns.

(** Truthiness of a string: [bool(s)]. *)
Definition truthy (s : string) : bool :=
  match s with EmptyString => false | _ => true end.

(** [sep.join(parts)] *)
Definition join (sep : string) (parts : list string) : string :=
  String.concat sep parts.

(** [str(n)] for an [int]. *)
Definition of_Z (n : Z) : string := NilZero.string_of_int (Z.to_int n).

(** [str(n)] for a non-negative position. *)
Definition of_nat (n : nat) : string := of_Z (Z.of_nat n).

End PyStr.

(** ** Citation categories and the URL classifier *)

Inductive Category := academic | news | docs | other.

#[global] Instance Category_eq_dec : EqDecision Category.
Proof. solve_decision. Defined.

Definition academic_domains : list string :=
  [ "arxiv.org"; "doi.org"; "pubmed"; "springer.com"; "nature.com";
    "sciencedirect"; ".edu/"; "acm.org"; "ieee.org"; "scholar.google";
    "ncbi.nlm.nih"; "plos.org"; "frontiersin.org"; "biorxiv.org";
    "medrxiv.org"; "researchgate.net"; "semanticscholar.org" ].

Definition docs_patterns : list string :=
  [ "docs."; "/docs/"; "documentation"; "readme"; "github.com";
    "gitlab.com"; "api."; "developer."; "devdocs" ].

Definition news_domains : list string :=
  [ "techcrunch"; "wired.com"; "theverge"; "arstechnica"; "bbc."; "cnn.";
    "reuters."; "nytimes"; "wsj.com"; "bloomberg."; "/news/"; "/blog/";
    "medium.com"; "substack.com"; "venturebeat"; "thenextweb" ].

(** [PerplexityResearchTool._categorize_url] (fallback variant, l.468-545). *)
Definition _categorize_url (url : string) : Category :=
  let url_lower := PyStr.lower url in
  if PyStr.any_in academic_domains url_lower then academic
  else if PyStr.any_in docs_patterns url_lower then docs
  else if PyStr.any_in news_domains url_lower then news
  else other.

(** ** Duck-typed attribute access *)

(** An attribute of an SDK object read with [getattr(o, name, default)]:
    missing, present with value [None], or present with a string. *)
Inductive pyattr := Missing | PyNone | PyVal (s : string).

Definition getattr (a : pyattr) (default : option string) : option string :=
  match a with
  | Missing => default
  | PyNone => None
  | PyVal s => Some s
  end.

(** Truthiness of [None] or a string. *)
Definition truthy (o : option string) : bool :=
  match o with
  | Some s => PyStr.truthy s
  | None => false
  end.

(** [a or b] *)
Definition py_or (a b : option string) : option string :=
  if truthy a then a else b.

(** [x or 0] on an optional token count. *)
Definition or_zero (x : option Z) : Z :=
  match x with
  | Some n => n
  | None => 0
  end.

(** ** SDK response shapes *)

Record Annotation := { ann_url : pyattr; ann_title : pyattr }.

(** Entries of [search_results] and [fetch_url_results] items; the latter
    never reads [name]. *)
Record ResultEntry := { res_url : pyattr; res_title : pyattr; res_name : pyattr }.

Record ContentItem :=
  { ci_type : option string;
    ci_text : pyattr;
    ci_annotations : option (list Annotation) }.

Record OutputItem :=
  { oi_type : option string;
    oi_content : option (list ContentItem);
    oi_results : option (list ResultEntry) }.

Record ResponseError := { err_code : string; err_message : string }.

Record ResponseUsage :=
  { input_tokens : option Z; output_tokens : option Z }.

Record ResponseCreateResponse :=
  { resp_model : string;
    resp_status : string;
    resp_error : option ResponseError;
    resp_output : list OutputItem;
    resp_usage : option ResponseUsage }.

(** ** The canonical result *)

Record Citation := { url : string; title : string; category : Category }.

#[global] Instance Citation_eq_dec : EqDecision Citation.
Proof. solve_decision. Defined.

(** The [result] dict built by [_parse_response] and [_execute_chat].
    [usage] is the inner dict, keyed by field name; [error] is [None] when
    the key is not set. *)
Record Result :=
  { content : string;
    citations : list Citation;
    usage : gmap string Z;
    model : string;
    status : string;
    error : option ResponseError }.

(** The three usage keys written by the normaliser. *)
Definition usage_dict (i o t : Z) : gmap string Z :=
  <["total_tokens" := t]> (<["output_tokens" := o]> (<["input_tokens" := i]> ∅)).

(** ** The response normaliser *)

(** Local state of the walk in [_parse_response]. *)
Record ParseState :=
  { text_parts : list string;
    st_citations : list Citation;
    seen_urls : gset string }.

Definition parse_init : ParseState :=
  {| text_parts := []; st_citations := []; seen_urls := ∅ |}.

(** [title if title and title != url else "Untitled"] *)
Definition display_title (title : option string) (u : string) : string :=
  match title with
  | Some t => if PyStr.truthy t && negb (bool_decide (t = u)) then t else "Untitled"
  | None => "Untitled"
  end.

(** The block
    [if url and url not in seen_urls: seen_urls.add(url); citations.append({...})]
    that closes each of the three inner loops. *)
Definition add_citation (u : option string) (title : option string)
    (st : ParseState) : ParseState :=
  match u with
  | Some u =>
      if PyStr.truthy u && bool_decide (u ∉ seen_urls st) then
        {| text_parts := text_parts st;
           st_citations := st_citations st ++
             [ {| url := u; title := display_title title u;
                  category := _categorize_url u |} ];
           seen_urls := {[ u ]} ∪ seen_urls st |}
      else st
  | None => st
  end.

Definition parse_annotation (st : ParseState) (a : Annotation) : ParseState :=
  let u := getattr (ann_url a) None in
  let title := getattr (ann_title a) u in
  add_citation u title st.

Definition parse_search_result (st : ParseState) (r : ResultEntry) : ParseState :=
  let u := getattr (res_url r) None in
  let title := py_or (getattr (res_title r) None) (getattr (res_name r) u) in
  add_citation u title st.

Definition parse_fetch_result (st : ParseState) (r : ResultEntry) : ParseState :=
  let u := getattr (res_url r) None in
  let title := py_or (getattr (res_title r) None) u in
  add_citation u title st.

Definition is_text_type (t : option string) : bool :=
  bool_decide (t = Some "output_text") || bool_decide (t = Some "text").

Definition append_text (text : option string) (st : ParseState) : ParseState :=
  match text with
  | Some t =>
      if PyStr.truthy t then
        {| text_parts := text_parts st ++ [t];
           st_citations := st_citations st;
           seen_urls := seen_urls st |}
      else st
  | None => st
  end.

Definition parse_content_item (st : ParseState) (c : ContentItem) : ParseState :=
  if is_text_type (ci_type c) then
    let st := append_text (getattr (ci_text c) (Some PyStr.empty)) st in
    fold_left parse_annotation (default [] (ci_annotations c)) st
  else st.

Definition parse_output_item (st : ParseState) (o : OutputItem) : ParseState :=
  if bool_decide (oi_type o = Some "message") then
    fold_left parse_content_item (default [] (oi_content o)) st
  else if bool_decide (oi_type o = Some "search_results") then
    fold_left parse_search_result (default [] (oi_results o)) st
  else if bool_decide (oi_type o = Some "fetch_url_results") then
    fold_left parse_fetch_result (default [] (oi_results o)) st
  else st.

(** [PerplexityResearchTool._parse_response] (fallback variant, l.547-656). *)
Definition _parse_response (response : ResponseCreateResponse) : Result :=
  let st := fold_left parse_output_item (resp_output response) parse_init in
  {| content := PyStr.join PyStr.nl (text_parts st);
     citations := st_citations st;
     usage :=
       match resp_usage response with
       | Some u =>
           usage_dict (or_zero (input_tokens u)) (or_zero (output_tokens u))
             (or_zero (input_tokens u) + or_zero (output_tokens u))
       | None => ∅
       end;
     model := resp_model response;
     status := resp_status response;
     error := resp_error response |}.

(** ** The output formatter *)

(** [enumerate(l, start)] *)
Fixpoint enumerate {A} (start : nat) (l : list A) : list (nat * A) :=
  match l with
  | [] => []
  | x :: l' => (start, x) :: enumerate (S start) l'
  end.

(** The [by_category] dict: one list of numbered citations per key. *)
Definition ByCategory := Category -> list (nat * Citation).

Definition by_category_init : ByCategory := fun _ => [].

(** [by_category[category].append((i, citation))] *)
Definition by_category_append (m : ByCategory) (ic : nat * Citation) : ByCategory :=
  fun k => if bool_decide (k = category ic.2) then m k ++ [ic] else m k.

(** [category_names], in insertion order. *)
Definition category_names : list (Category * string) :=
  [ (academic, "### Academic Sources");
    (news, "### News & Industry");
    (docs, "### Documentation");
    (other, "### Other Sources") ].

(** Body of the innermost loop: the two lines of one citation, or nothing
    when its url is empty ([continue]). *)
Definition format_entry (parts : list string) (ic : nat * Citation) : list string :=
  if negb (PyStr.truthy (url ic.2)) then parts
  else parts ++ [ "- [" +:+ PyStr.of_nat ic.1 +:+ "] " +:+ title ic.2;
                  "  URL: " +:+ url ic.2 ].

(** Body of the loop over [category_names.items()]. *)
Definition format_category (by_category : ByCategory) (parts : list string)
    (cn : Category * string) : list string :=
  match by_category cn.1 with
  | [] => parts
  | members => fold_left format_entry members (parts ++ [PyStr.nl +:+ cn.2])
  end.

Definition references_heading : string :=
  PyStr.nl +:+ PyStr.nl +:+ "## References" +:+ PyStr.nl.

Definition tokens_line (u : gmap string Z) : string :=
  PyStr.nl +:+ PyStr.nl +:+ "---" +:+ PyStr.nl +:+ "Tokens: " +:+
  match u !! "total_tokens" with
  | Some n => PyStr.of_Z n
  | None => "N/A"
  end.

(** The list [parts] at the end of [_format_structured_output]. *)
Definition format_parts (result : Result) : list string :=
  let parts := [content result] in
  let parts :=
    match citations result with
    | [] => parts
    | cs =>
        let parts := parts ++ [references_heading] in
        let by_category :=
          fold_left by_category_append (enumerate 1 cs) by_category_init in
        fold_left (format_category by_category) category_names parts
    end in
  if bool_decide (usage result = ∅) then parts
  else parts ++ [tokens_line (usage result)].

(** [PerplexityResearchTool._format_structured_output] (l.658-709). *)
Definition _format_structured_output (result : Result) : string :=
  PyStr.join PyStr.nl (format_parts result).

(** ** Collaborator: the SDK client *)

(** Exceptions the tool can meet.  The first five are the SDK's
    ([perplexity.*]); [RateLimitError] and [BadRequestError] are subclasses
    of [APIStatusError], [APITimeoutError] of [APIConnectionError].  Status
    errors carry [status_code] and [message]; the others carry the text
    given by [str(e)]. *)
Inductive PyExn :=
| RateLimitError (status_code : Z) (message : string)
| APITimeoutError (text : string)
| BadRequestError (status_code : Z) (message : string)
| APIStatusError (status_code : Z) (message : string)
| APIConnectionError (text : string)
| ValueError (text : string)
| OtherException (text : string).

(** [str(e)] *)
Definition exn_str (e : PyExn) : string :=
  match e with
  | RateLimitError _ m | BadRequestError _ m | APIStatusError _ m => m
  | APITimeoutError t | APIConnectionError t | ValueError t
  | OtherException t => t
  end.

(** Arguments of [client.responses.create]. *)
Record ResearchRequest :=
  { rq_input : string;
    rq_preset : string;
    rq_effort : string;
    rq_max_steps : Z }.

(** Arguments of [client.chat.completions.create]: the model and the
    contents of the system and user messages. *)
Record ChatRequest :=
  { cq_model : string;
    cq_system : string;
    cq_user : string }.

Record ChatMessage :=
  { msg_content : option string;
    msg_citations : option (list string) }.

Record Choice := { message : ChatMessage }.

Record ChatUsage :=
  { prompt_tokens : option Z;
    completion_tokens : option Z;
    total_tokens : option Z }.

Record ChatCompletion :=
  { choices : option (list Choice);
    chat_usage : option ChatUsage }.

(** One interaction with a client handle. *)
Inductive Call :=
| ResponsesCreate (handle : nat) (rq : ResearchRequest)
| ChatCompletionsCreate (handle : nat) (cq : ChatRequest)
| ClientClose (handle : nat).

(** Upstream requests among the calls. *)
Definition is_request (c : Call) : bool :=
  match c with
  | ClientClose _ => false
  | _ => true
  end.

Definition is_chat_request (c : Call) : bool :=
  match c with
  | ChatCompletionsCreate _ _ => true
  | _ => false
  end.

(** The remote service: what each request returns or raises, which may
    depend on the calls made before. *)
Record Upstream :=
  { responses_create :
      list Call -> ResearchRequest -> PyExn + ResponseCreateResponse;
    chat_completions_create :
      list Call -> ChatRequest -> PyExn + ChatCompletion }.

(** ** Tool instance *)

(** Attributes fixed by [__init__].  [timeout] holds the text that
    [f"{self.timeout}"] prints. *)
Record Config :=
  { _api_key : option string;
    cfg_reasoning_effort : string;
    cfg_max_steps : Z;
    timeout : string }.

(** Mutable part of the instance and of its surroundings: the [_client]
    attribute (a handle, numbered in order of construction), how many
    clients were constructed, which were closed, and the log of calls. *)
Record State :=
  { _client : option nat;
    constructed : nat;
    closed : list nat;
    calls : list Call }.

Definition initial_state : State :=
  {| _client := None; constructed := 0%nat; closed := []; calls := [] |}.

Inductive Outcome (A : Type) :=
| Ret (a : A)
| Raise (e : PyExn).
Arguments Ret {A} a.
Arguments Raise {A} e.

(** State and exceptions. *)
Definition M (A : Type) : Type := State -> Outcome A * State.

Definition ret {A} (a : A) : M A := fun s => (Ret a, s).
Definition raise {A} (e : PyExn) : M A := fun s => (Raise e, s).

Definition bind {A B} (m : M A) (k : A -> M B) : M B :=
  fun s =>
    match m s with
    | (Ret a, s') => k a s'
    | (Raise e, s') => (Raise e, s')
    end.

(** [try: body except Exception as e: handler(e)] *)
Definition try_except {A} (body : M A) (handler : PyExn -> M A) : M A :=
  fun s =>
    match body s with
    | (Ret a, s') => (Ret a, s')
    | (Raise e, s') => handler e s'
    end.

Notation "x <- m ;; k" := (bind m (fun x => k))
  (at level 100, m at next level, right associativity).

Record ToolResult :=
  { success : bool;
    output : string;
    tr_error : option string }.

(** [ToolResult(success=False, output=o, error={"message": msg})] *)
Definition failure (o msg : string) : ToolResult :=
  {| success := false; output := o; tr_error := Some msg |}.

(** Tool input, typed as [input_schema] declares it; [None] is an absent
    key.  [Untyped.Input] below is the dictionary before any validation. *)
Record Input :=
  { in_query : option string;
    in_mode : option string;
    in_model : option string;
    in_reasoning_effort : option string;
    in_max_steps : option Z;
    in_instructions : option string }.

(** ** The tool's methods *)

Section Tool.

Variable cfg : Config.
Variable up : Upstream.

(** The [client] property (l.125-143): the handle in [_client], created
    on first use. *)
Definition client : M nat :=
  fun s =>
    match _client s with
    | Some h => (Ret h, s)
    | None =>
        match _api_key cfg with
        | None => (Raise (ValueError "api_key must be provided for API calls"), s)
        | Some _ =>
            let h := constructed s in
            (Ret h, {| _client := Some h;
                       constructed := S h;
                       closed := closed s;
                       calls := calls s |})
        end
    end.

(** [close] (l.145-153). *)
Definition close : M unit :=
  fun s =>
    match _client s with
    | Some h =>
        (Ret tt, {| _client := None;
                    constructed := constructed s;
                    closed := closed s ++ [h];
                    calls := calls s ++ [ClientClose h] |})
    | None => (Ret tt, s)
    end.

(** [await client.responses.create(...)] on handle [h]. *)
Definition call_responses_create (h : nat) (rq : ResearchRequest)
    : M ResponseCreateResponse :=
  fun s =>
    let s' := {| _client := _client s;
                 constructed := constructed s;
                 closed := closed s;
                 calls := calls s ++ [ResponsesCreate h rq] |} in
    match responses_create up (calls s) rq with
    | inl e => (Raise e, s')
    | inr r => (Ret r, s')
    end.

(** [await client.chat.completions.create(...)] on handle [h]. *)
Definition call_chat_completions_create (h : nat) (cq : ChatRequest)
    : M ChatCompletion :=
  fun s =>
    let s' := {| _client := _client s;
                 constructed := constructed s;
                 closed := closed s;
                 calls := calls s ++ [ChatCompletionsCreate h cq] |} in
    match chat_completions_create up (calls s) cq with
    | inl e => (Raise e, s')
    | inr r => (Ret r, s')
    end.

(** [_make_chat_request] (l.406-425). *)
Definition _make_chat_request (query model instructions : string)
    : M ChatCompletion :=
  h <- client ;;
  call_chat_completions_create h
    {| cq_model := model; cq_system := instructions; cq_user := query |}.

(** [_make_research_request] (l.427-466). *)
Definition _make_research_request (query reasoning_effort : string)
    (max_steps : Z) (instructions : string) : M ResponseCreateResponse :=
  let combined_input :=
    if PyStr.truthy instructions
    then instructions +:+ PyStr.nl +:+ PyStr.nl +:+ "Research question: " +:+ query
    else query in
  h <- client ;;
  call_responses_create h
    {| rq_input := combined_input;
       rq_preset := "pro-search";
       rq_effort := reasoning_effort;
       rq_max_steps := max_steps |}.

(** [error_msg = f"API error {e.status_code}"], extended with the
    message when there is one; [prefix] is ["API error "] or
    ["Chat API error "]. *)
Definition status_error_msg (prefix : string) (status_code : Z)
    (message : string) : string :=
  let error_msg := prefix +:+ PyStr.of_Z status_code in
  if PyStr.truthy message then error_msg +:+ ": " +:+ message else error_msg.

(** The [except] clauses of [_execute_research], first match first. *)
Definition research_handler (e : PyExn) : ToolResult :=
  match e with
  | RateLimitError _ m =>
      let error_msg := "Rate limited: " +:+ m in
      failure error_msg error_msg
  | APITimeoutError _ =>
      let error_msg :=
        "Research request timed out after " +:+ timeout cfg +:+ "s" in
      failure error_msg error_msg
  | BadRequestError _ m =>
      let error_msg := "Invalid request: " +:+ m in
      failure error_msg error_msg
  | APIStatusError c m =>
      let error_msg := status_error_msg "API error " c m in
      failure error_msg error_msg
  | APIConnectionError _ =>
      failure PyStr.empty ("Connection error: " +:+ exn_str e)
  | ValueError _ | OtherException _ =>
      failure PyStr.empty ("Research failed: " +:+ exn_str e)
  end.

(** [_execute_research] (l.247-324). *)
Definition _execute_research (query reasoning_effort : string)
    (max_steps : Z) (instructions : string) : M ToolResult :=
  try_except
    (response <- _make_research_request query reasoning_effort max_steps
                   instructions ;;
     let result := _parse_response response in
     let output := _format_structured_output result in
     ret {| success := true; output := output; tr_error := None |})
    (fun e => ret (research_handler e)).

(** The [except] clauses of [_execute_chat], first match first. *)
Definition chat_handler (e : PyExn) : ToolResult :=
  match e with
  | RateLimitError _ m =>
      let error_msg := "Chat rate limited: " +:+ m in
      failure error_msg error_msg
  | BadRequestError c m | APIStatusError c m =>
      let error_msg := status_error_msg "Chat API error " c m in
      failure error_msg error_msg
  | APITimeoutError _ | APIConnectionError _ | ValueError _
  | OtherException _ =>
      failure PyStr.empty ("Chat failed: " +:+ exn_str e)
  end.

(** Body of the loop over [message.citations]. *)
Definition chat_add_citation (cs : list Citation) (u : string) : list Citation :=
  if bool_decide (u ∈ url <$> cs) then cs
  else cs ++ [ {| url := u; title := "Citation";
                  category := _categorize_url u |} ].

(** The [result] dict that [_execute_chat] builds from a response. *)
Definition chat_result (model : string) (response : ChatCompletion) : Result :=
  let '(content, citations) :=
    match choices response with
    | Some (c :: _) =>
        let message := message c in
        (default PyStr.empty (msg_content message),
         match msg_citations message with
         | Some urls => fold_left chat_add_citation urls []
         | None => []
         end)
    | _ => (PyStr.empty, [])
    end in
  {| content := content;
     citations := citations;
     usage :=
       match chat_usage response with
       | Some u =>
           usage_dict (or_zero (prompt_tokens u))
             (or_zero (completion_tokens u)) (or_zero (total_tokens u))
       | None => ∅
       end;
     model := model;
     status := "completed";
     error := None |}.

(** [_execute_chat] (l.326-404). *)
Definition _execute_chat (query model instructions fallback_note : string)
    : M ToolResult :=
  try_except
    (response <- _make_chat_request query model instructions ;;
     let result := chat_result model response in
     let output := _format_structured_output result in
     let output :=
       if PyStr.truthy fallback_note
       then fallback_note +:+ PyStr.nl +:+ PyStr.nl +:+ output
       else output in
     ret {| success := true; output := output; tr_error := None |})
    (fun e => ret (chat_handler e)).

Definition fallback_triggers : list string :=
  [ "rate limit"; "quota"; "429"; "insufficient" ].

(** [any(trigger in error_msg.lower() for trigger in [...])] *)
Definition should_fallback (error_msg : string) : bool :=
  PyStr.any_in fallback_triggers (PyStr.lower error_msg).

(** The [else] branch of [execute] (l.219-245). *)
Definition auto_mode (query model reasoning_effort : string) (max_steps : Z)
    (instructions : string) : M ToolResult :=
  result <- _execute_research query reasoning_effort max_steps instructions ;;
  match negb (success result), tr_error result with
  | true, Some error_msg =>
      if should_fallback error_msg then
        _execute_chat query model instructions
          ("(Fallback from Research API: " +:+ error_msg +:+ ")")
      else ret result
  | _, _ => ret result
  end.

(** [execute] (l.163-245) on a schema-typed input, where the conversion
    [int(input["max_steps"])] of l.200-202 returns the integer it is given.
    [Untyped.execute] below is [execute] on any dictionary, conversion
    included. *)
Definition execute (input : Input) : M ToolResult :=
  let query := in_query input in
  if negb (truthy query) then
    ret (failure PyStr.empty "Missing required parameter: query")
  else
    let query := default PyStr.empty query in
    let mode := default "auto" (in_mode input) in
    let model := default "sonar-pro" (in_model input) in
    let reasoning_effort :=
      default (cfg_reasoning_effort cfg) (in_reasoning_effort input) in
    let max_steps := default (cfg_max_steps cfg) (in_max_steps input) in
    let instructions :=
      if truthy (in_instructions input)
      then default PyStr.empty (in_instructions input)
      else "Provide thorough, well-researched answers with citations." in
    if bool_decide (mode = "chat") then
      _execute_chat query model instructions PyStr.empty
    else if bool_decide (mode = "research") then
      _execute_research query reasoning_effort max_steps instructions
    else
      auto_mode query model reasoning_effort max_steps instructions.

End Tool.

(** ** [execute] on an input that no schema has validated

    [execute] receives a [dict[str, Any]].  The values under ["mode"],
    ["model"], ["reasoning_effort"] and ["instructions"] go through
    [str(...)], which returns for every value; the value under
    ["max_steps"] goes through [int(...)] (l.200-202), which raises for a
    value that is no number, and does so before any [try].  [IntArg] is
    that value as [int] sees it. *)

Inductive IntArg :=
| IntOk (z : Z)          (* [int(v)] returns [z] *)
| IntRaises (e : PyExn). (* [int(v)] raises [e]: [ValueError], [TypeError] *)

(** [int(v)] *)
Definition py_int (v : IntArg) : M Z :=
  match v with
  | IntOk z => ret z
  | IntRaises e => raise e
  end.

Module Untyped.

(** The input dictionary before any validation; [None] is an absent key.
    The values under the string keys are kept as [str] renders them, the
    value under ["max_steps"] as [int] sees it. *)
Record Input :=
  { in_query : option string;
    in_mode : option string;
    in_model : option string;
    in_reasoning_effort : option string;
    in_max_steps : option IntArg;
    in_instructions : option string }.

(** [execute] (l.163-245), with the conversion of l.200-202. *)
Definition execute (cfg : Config) (up : Upstream) (input : Input)
    : M ToolResult :=
  let query := in_query input in
  if negb (truthy query) then
    ret (failure PyStr.empty "Missing required parameter: query")
  else
    let query := default PyStr.empty query in
    let mode := default "auto" (in_mode input) in
    let model := default "sonar-pro" (in_model input) in
    let reasoning_effort :=
      default (cfg_reasoning_effort cfg) (in_reasoning_effort input) in
    max_steps <- match in_max_steps input with
                 | Some v => py_int v
                 | None => ret (cfg_max_steps cfg)
                 end ;;
    let instructions :=
      if truthy (in_instructions input)
      then default PyStr.empty (in_instructions input)
      else "Provide thorough, well-researched answers with citations." in
    if bool_decide (mode = "chat") then
      _execute_chat cfg up query model instructions PyStr.empty
    else if bool_decide (mode = "research") then
      _execute_research cfg up query reasoning_effort max_steps instructions
    else
      auto_mode cfg up query model reasoning_effort max_steps instructions.

End Untyped.

(** ** The preset variant

    [modules/tool-perplexity-search/__init__.py] has its own classifier
    (l.296-373) and normaliser (l.375-484); they read the same SDK
    response types. *)

Module PresetVariant.

Definition academic_domains : list string :=
  [ "arxiv.org"; "doi.org"; "pubmed"; "springer.com"; "nature.com";
    "sciencedirect"; ".edu/"; "acm.org"; "ieee.org"; "scholar.google";
    "ncbi.nlm.nih"; "plos.org"; "frontiersin.org"; "biorxiv.org";
    "medrxiv.org"; "researchgate.net"; "semanticscholar.org" ].

Definition docs_patterns : list string :=
  [ "docs."; "/docs/"; "documentation"; "readme"; "github.com";
    "gitlab.com"; "api."; "developer."; "devdocs" ].

Definition news_domains : list string :=
  [ "techcrunch"; "wired.com"; "theverge"; "arstechnica"; "bbc."; "cnn.";
    "reuters."; "nytimes"; "wsj.com"; "bloomberg."; "/news/"; "/blog/";
    "medium.com"; "substack.com"; "venturebeat"; "thenextweb" ].

Definition _categorize_url (url : string) : Category :=
  let url_lower := PyStr.lower url in
  if PyStr.any_in academic_domains url_lower then academic
  else if PyStr.any_in docs_patterns url_lower then docs
  else if PyStr.any_in news_domains url_lower then news
  else other.

Definition add_citation (u : option string) (title : option string)
    (st : ParseState) : ParseState :=
  match u with
  | Some u =>
      if PyStr.truthy u && bool_decide (u ∉ seen_urls st) then
        {| text_parts := text_parts st;
           st_citations := st_citations st ++
             [ {| url := u; title := display_title title u;
                  category := _categorize_url u |} ];
           seen_urls := {[ u ]} ∪ seen_urls st |}
      else st
  | None => st
  end.

Definition parse_annotation (st : ParseState) (a : Annotation) : ParseState :=
  let u := getattr (ann_url a) None in
  let title := getattr (ann_title a) u in
  add_citation u title st.

Definition parse_search_result (st : ParseState) (r : ResultEntry) : ParseState :=
  let u := getattr (res_url r) None in
  let title := py_or (getattr (res_title r) None) (getattr (res_name r) u) in
  add_citation u title st.

Definition parse_fetch_result (st : ParseState) (r : ResultEntry) : ParseState :=
  let u := getattr (res_url r) None in
  let title := py_or (getattr (res_title r) None) u in
  add_citation u title st.

Definition parse_content_item (st : ParseState) (c : ContentItem) : ParseState :=
  if is_text_type (ci_type c) then
    let st := append_text (getattr (ci_text c) (Some PyStr.empty)) st in
    fold_left parse_annotation (default [] (ci_annotations c)) st
  else st.

Definition parse_output_item (st : ParseState) (o : OutputItem) : ParseState :=
  if bool_decide (oi_type o = Some "message") then
    fold_left parse_content_item (default [] (oi_content o)) st
  else if bool_decide (oi_type o = Some "search_results") then
    fold_left parse_search_result (default [] (oi_results o)) st
  else if bool_decide (oi_type o = Some "fetch_url_results") then
    fold_left parse_fetch_result (default [] (oi_results o)) st
  else st.

Definition _parse_response (response : ResponseCreateResponse) : Result :=
  let st := fold_left parse_output_item (resp_output response) parse_init in
  {| content := PyStr.join PyStr.nl (text_parts st);
     citations := st_citations st;
     usage :=
       match resp_usage response with
       | Some u =>
           usage_dict (or_zero (input_tokens u)) (or_zero (output_tokens u))
             (or_zero (input_tokens u) + or_zero (output_tokens u))
       | None => ∅
       end;
     model := resp_model response;
     status := resp_status response;
     error := resp_error response |}.

End PresetVariant.

(** ** Construction and mounting *)

(** The [config] dict given to [mount] and to [__init__], its keys typed;
    [None] is an absent key.  [cd_timeout] holds the text the float
    prints as. *)
Record ConfigDict :=
  { cd_api_key : option string;
    cd_preset : option string;
    cd_reasoning_effort : option string;
    cd_max_steps : option Z;
    cd_timeout : option string;
    cd_max_retries : option Z }.

(** [{}] *)
Definition empty_dict : ConfigDict :=
  {| cd_api_key := None; cd_preset := None; cd_reasoning_effort := None;
     cd_max_steps := None; cd_timeout := None; cd_max_retries := None |}.

(** A tool instance: the attributes [__init__] sets and the state it
    starts in. *)
Record Instance :=
  { inst_cfg : Config;
    preset : string;
    max_retries : Z;
    inst_state : State }.

(** [PerplexityResearchTool.name] *)
Definition name : string := "perplexity_research".

(** [PerplexityResearchTool.__init__] (l.44-67). *)
Definition __init__ (api_key : option string) (config : option ConfigDict)
    : Instance :=
  let config := default empty_dict config in
  {| inst_cfg :=
       {| _api_key := api_key;
          cfg_reasoning_effort := default "medium" (cd_reasoning_effort config);
          cfg_max_steps := default 5 (cd_max_steps config);
          timeout := default "120.0" (cd_timeout config) |};
     preset := default "pro-search" (cd_preset config);
     max_retries := default 2 (cd_max_retries config);
     inst_state := initial_state |}.

(** What the coordinator has mounted: pairs of mount point and name. *)
Definition Coordinator := list (string * string).

(** [mount] (l.712-752).  [environ] is the value of the environment
    variable [PERPLEXITY_API_KEY].  The result is [None] or the mounted
    tool, which stands for the closure over it that [mount] returns and
    that calls the tool's [close]. *)
Definition mount (environ : option string) (coordinator : Coordinator)
    (config : option ConfigDict) : option Instance * Coordinator :=
  let config := default empty_dict config in
  let api_key := py_or (cd_api_key config) environ in
  if negb (truthy api_key) then (None, coordinator)
  else
    let tool := __init__ api_key (Some config) in
    (Some tool, coordinator ++ [("tools", name)]).

(** ** The preset variant: the tool

    [modules/tool-perplexity-search/__init__.py] offers one mode only.  Its
    [execute] (l.158-257) sends one request, built by [_make_request]
    (l.259-294), and renders the answer with its own copy of the formatter
    (l.486-537). *)

Module PresetTool.

(** The input dictionary; [None] is an absent key or a [None] value.  The
    value under ["max_steps"] is kept as [int] sees it. *)
Record Input :=
  { p_query : option string;
    p_preset : option string;
    p_reasoning_effort : option string;
    p_max_steps : option IntArg;
    p_instructions : option string }.

(** Attributes fixed by [__init__]. *)
Record ToolConfig :=
  { tc_api_key : option string;
    tc_preset : string;
    tc_reasoning_effort : string;
    tc_max_steps : Z;
    tc_timeout : string }.

(** Arguments of [client.responses.create]; [req_tools] lists the [type]
    of each tool. *)
Record Request :=
  { req_input : string;
    req_preset : string;
    req_effort : string;
    req_max_steps : Z;
    req_tools : list string;
    req_instructions : string }.

Inductive Call :=
| Create (handle : nat) (rq : Request)
| Close (handle : nat).

Definition Upstream : Type :=
  list Call -> Request -> PyExn + ResponseCreateResponse.

Record State :=
  { st_client : option nat;
    st_constructed : nat;
    st_closed : list nat;
    st_calls : list Call }.

Definition initial_state : State :=
  {| st_client := None; st_constructed := 0%nat; st_closed := [];
     st_calls := [] |}.

(** The [client] property (l.120-138). *)
Definition client (cfg : ToolConfig) (s : State) : Outcome nat * State :=
  match st_client s with
  | Some h => (Ret h, s)
  | None =>
      match tc_api_key cfg with
      | None => (Raise (ValueError "api_key must be provided for API calls"), s)
      | Some _ =>
          let h := st_constructed s in
          (Ret h, {| st_client := Some h; st_constructed := S h;
                     st_closed := st_closed s; st_calls := st_calls s |})
      end
  end.

(** [_make_request] (l.259-294). *)
Definition _make_request (cfg : ToolConfig) (up : Upstream)
    (query preset reasoning_effort : string) (max_steps : Z)
    (instructions : string) (s : State)
    : Outcome ResponseCreateResponse * State :=
  match client cfg s with
  | (Raise e, s') => (Raise e, s')
  | (Ret h, s') =>
      let rq := {| req_input := query;
                   req_preset := preset;
                   req_effort := reasoning_effort;
                   req_max_steps := max_steps;
                   req_tools := ["web_search"; "fetch_url"];
                   req_instructions := instructions |} in
      let s'' := {| st_client := st_client s';
                    st_constructed := st_constructed s';
                    st_closed := st_closed s';
                    st_calls := st_calls s' ++ [Create h rq] |} in
      match up (st_calls s') rq with
      | inl e => (Raise e, s'')
      | inr r => (Ret r, s'')
      end
  end.

(** The formatter of this file (l.486-537). *)

Definition by_category_append (m : ByCategory) (ic : nat * Citation) : ByCategory :=
  fun k => if bool_decide (k = category ic.2) then m k ++ [ic] else m k.

Definition category_names : list (Category * string) :=
  [ (academic, "### Academic Sources");
    (news, "### News & Industry");
    (docs, "### Documentation");
    (other, "### Other Sources") ].

Definition format_entry (parts : list string) (ic : nat * Citation) : list string :=
  if negb (PyStr.truthy (url ic.2)) then parts
  else parts ++ [ "- [" +:+ PyStr.of_nat ic.1 +:+ "] " +:+ title ic.2;
                  "  URL: " +:+ url ic.2 ].

Definition format_category (by_category : ByCategory) (parts : list string)
    (cn : Category * string) : list string :=
  match by_category cn.1 with
  | [] => parts
  | members => fold_left format_entry members (parts ++ [PyStr.nl +:+ cn.2])
  end.

Definition format_parts (result : Result) : list string :=
  let parts := [content result] in
  let parts :=
    match citations result with
    | [] => parts
    | cs =>
        let parts :=
          parts ++ [PyStr.nl +:+ PyStr.nl +:+ "## References" +:+ PyStr.nl] in
        let by_category :=
          fold_left by_category_append (enumerate 1 cs) by_category_init in
        fold_left (format_category by_category) category_names parts
    end in
  if bool_decide (usage result = ∅) then parts
  else parts ++
       [ PyStr.nl +:+ PyStr.nl +:+ "---" +:+ PyStr.nl +:+ "Tokens: " +:+
         match usage result !! "total_tokens" with
         | Some n => PyStr.of_Z n
         | None => "N/A"
         end ].

Definition _format_structured_output (result : Result) : string :=
  PyStr.join PyStr.nl (format_parts result).

(** The [except] clauses of [execute], first match first; every one
    returns an empty output. *)
Definition handler (cfg : ToolConfig) (e : PyExn) : ToolResult :=
  match e with
  | RateLimitError _ m => failure PyStr.empty ("Rate limited: " +:+ m)
  | APITimeoutError _ =>
      failure PyStr.empty
        ("Research request timed out after " +:+ tc_timeout cfg +:+ "s")
  | BadRequestError c m | APIStatusError c m =>
      let error_msg := "API error: " +:+ PyStr.of_Z c in
      failure PyStr.empty
        (if PyStr.truthy m then error_msg +:+ " - " +:+ m else error_msg)
  | APIConnectionError _ =>
      failure PyStr.empty ("Connection error: " +:+ exn_str e)
  | ValueError _ | OtherException _ =>
      failure PyStr.empty ("Research failed: " +:+ exn_str e)
  end.

(** [execute] (l.158-257).  The conversion [int(input["max_steps"])]
    (l.191-193) comes before the [try] of l.202: what it raises leaves
    [execute]. *)
Definition execute (cfg : ToolConfig) (up : Upstream) (input : Input)
    (s : State) : Outcome ToolResult * State :=
  let query := p_query input in
  if negb (truthy query) then
    (Ret (failure PyStr.empty "Missing required parameter: query"), s)
  else
    let query := default PyStr.empty query in
    let preset := default (tc_preset cfg) (p_preset input) in
    let reasoning_effort :=
      default (tc_reasoning_effort cfg) (p_reasoning_effort input) in
    match
      match p_max_steps input with
      | Some (IntOk z) => Ret z
      | Some (IntRaises e) => Raise e
      | None => Ret (tc_max_steps cfg)
      end
    with
    | Raise e => (Raise e, s)
    | Ret max_steps =>
        let instructions :=
          if truthy (p_instructions input)
          then default PyStr.empty (p_instructions input)
          else "Provide thorough, well-researched answers with citations." in
        match _make_request cfg up query preset reasoning_effort max_steps
                instructions s with
        | (Ret response, s') =>
            let result := PresetVariant._parse_response response in
            let output := _format_structured_output result in
            (Ret {| success := true; output := output; tr_error := None |}, s')
        | (Raise e, s') => (Ret (handler cfg e), s')
        end
    end.

End PresetTool.

(** * Specification vocabulary *)

(** [p] occurs in [s]. *)
Definition substring (p s : string) : Prop :=
  exists pre post, s = pre +:+ p +:+ post.

(** Some entry of the rule table [tbl] occurs in the lower-cased [u]. *)
Definition matches (tbl : list string) (u : string) : Prop :=
  exists p, p ∈ tbl /\ substring p (PyStr.lower u).

(** ** Candidate citations of a deep-research response

    The candidates are what the walk meets, in walk order, before any
    de-duplication: one per annotation of a text block of a message item
    and one per entry of a search or fetch item, provided its url is a
    non-empty string.  A candidate already carries its display title. *)

Definition candidate (u title : option string) : list Citation :=
  match u with
  | Some u =>
      if PyStr.truthy u
      then [ {| url := u; title := display_title title u;
                category := _categorize_url u |} ]
      else []
  | None => []
  end.

Definition annotation_candidates (a : Annotation) : list Citation :=
  candidate (getattr (ann_url a) None)
    (getattr (ann_title a) (getattr (ann_url a) None)).

Definition search_candidates (r : ResultEntry) : list Citation :=
  candidate (getattr (res_url r) None)
    (py_or (getattr (res_title r) None)
       (getattr (res_name r) (getattr (res_url r) None))).

Definition fetch_candidates (r : ResultEntry) : list Citation :=
  candidate (getattr (res_url r) None)
    (py_or (getattr (res_title r) None) (getattr (res_url r) None)).

Definition content_item_candidates (c : ContentItem) : list Citation :=
  if is_text_type (ci_type c)
  then flat_map annotation_candidates (default [] (ci_annotations c))
  else [].

Definition output_item_candidates (o : OutputItem) : list Citation :=
  if bool_decide (oi_type o = Some "message") then
    flat_map content_item_candidates (default [] (oi_content o))
  else if bool_decide (oi_type o = Some "search_results") then
    flat_map search_candidates (default [] (oi_results o))
  else if bool_decide (oi_type o = Some "fetch_url_results") then
    flat_map fetch_candidates (default [] (oi_results o))
  else [].

Definition candidates (r : ResponseCreateResponse) : list Citation :=
  flat_map output_item_candidates (resp_output r).

(** Keep, of each url, the first citation that has it, in order. *)
Fixpoint first_occurrences (cs : list Citation) : list Citation :=
  match cs with
  | [] => []
  | c :: cs' => c :: filter (fun c' => url c' <> url c) (first_occurrences cs')
  end.

(** A deep-research response whose output is two message items, each a
    single text block with a single annotation, as the de-duplication test
    of the repository builds it. *)
Definition text_message (text : string) (anns : list Annotation) : OutputItem :=
  {| oi_type := Some "message";
     oi_content :=
       Some [ {| ci_type := Some "output_text";
                 ci_text := PyVal text;
                 ci_annotations := Some anns |} ];
     oi_results := None |}.

Definition two_annotation_response (u t1 t2 : string) : ResponseCreateResponse :=
  {| resp_model := "sonar";
     resp_status := "completed";
     resp_error := None;
     resp_output :=
       [ text_message "Text 1." [ {| ann_url := PyVal u; ann_title := PyVal t1 |} ];
         text_message "Text 2." [ {| ann_url := PyVal u; ann_title := PyVal t2 |} ] ];
     resp_usage := None |}.

(** ** The references section, in the words of the specification *)

(** Citations paired with their 1-based position in the sequence. *)
Definition numbered (cs : list Citation) : list (nat * Citation) :=
  imap (fun i c => (S i, c)) cs.

Definition heading (k : Category) : string :=
  match k with
  | academic => "### Academic Sources"
  | news => "### News & Industry"
  | docs => "### Documentation"
  | other => "### Other Sources"
  end.

(** The two lines of a citation; none when its url is empty. *)
Definition entry_lines (ic : nat * Citation) : list string :=
  if bool_decide (url ic.2 = PyStr.empty) then []
  else [ "- [" +:+ PyStr.of_nat ic.1 +:+ "] " +:+ title ic.2;
         "  URL: " +:+ url ic.2 ].

(** The group of category [k]: nothing when no citation has that category,
    else its subheading and the lines of its members. *)
Definition group_lines (cs : list Citation) (k : Category) : list string :=
  match filter (fun ic => category ic.2 = k) (numbered cs) with
  | [] => []
  | members => (PyStr.nl +:+ heading k) :: flat_map entry_lines members
  end.

Definition references_lines (cs : list Citation) : list string :=
  references_heading ::
  group_lines cs academic ++ group_lines cs news ++
  group_lines cs docs ++ group_lines cs other.

Definition usage_lines (u : gmap string Z) : list string :=
  if bool_decide (u = ∅) then [] else [tokens_line u].

(** ** Sample responses *)

Definition usage_100_200 : ResponseUsage :=
  {| input_tokens := Some 100; output_tokens := Some 200 |}.

Definition research_usage_example : ResponseCreateResponse :=
  {| resp_model := "sonar"; resp_status := "completed"; resp_error := None;
     resp_output := []; resp_usage := Some usage_100_200 |}.

(** A chat usage record whose total is not the sum of its parts. *)
Definition usage_10_20_999 : ChatUsage :=
  {| prompt_tokens := Some 10; completion_tokens := Some 20;
     total_tokens := Some 999 |}.

Definition chat_usage_example : ChatCompletion :=
  {| choices := None; chat_usage := Some usage_10_20_999 |}.


Definition result_with (cs : list Citation) : Result :=
  {| content := "X"; citations := cs; usage := ∅; model := "sonar";
     status := "completed"; error := None |}.

(** ** Vocabulary for the orchestrator *)

(** The state after one more call. *)
Definition log_call (c : Call) (s : State) : State :=
  {| _client := _client s; constructed := constructed s;
     closed := closed s; calls := calls s ++ [c] |}.

(** [ToolResult(success=True, output=o)] *)
Definition ok (o : string) : ToolResult :=
  {| success := true; output := o; tr_error := None |}.

(** What [_make_research_request] sends. *)
Definition research_request (query reasoning_effort : string) (max_steps : Z)
    (instructions : string) : ResearchRequest :=
  {| rq_input :=
       if PyStr.truthy instructions
       then instructions +:+ PyStr.nl +:+ PyStr.nl +:+ "Research question: " +:+ query
       else query;
     rq_preset := "pro-search";
     rq_effort := reasoning_effort;
     rq_max_steps := max_steps |}.

(** What [_make_chat_request] sends. *)
Definition chat_request (query model instructions : string) : ChatRequest :=
  {| cq_model := model; cq_system := instructions; cq_user := query |}.

(** The annotation put in front of a fallback answer. *)
Definition fallback_note (error_msg : string) : string :=
  "(Fallback from Research API: " +:+ error_msg +:+ ")".

(** Outcome of a research attempt, given what the service answered. *)
Definition research_outcome (cfg : Config)
    (answer : PyExn + ResponseCreateResponse) : ToolResult :=
  match answer with
  | inl e => research_handler cfg e
  | inr r => ok (_format_structured_output (_parse_response r))
  end.

(** Outcome of a chat attempt, given what the service answered. *)
Definition chat_outcome (model note : string)
    (answer : PyExn + ChatCompletion) : ToolResult :=
  match answer with
  | inl e => chat_handler e
  | inr r =>
      let output := _format_structured_output (chat_result model r) in
      ok (if PyStr.truthy note
          then note +:+ PyStr.nl +:+ PyStr.nl +:+ output else output)
  end.

(** The error messages of the specification, one per failure kind and
    mode. *)
Definition research_message (cfg : Config) (e : PyExn) : string :=
  match e with
  | RateLimitError _ m => "Rate limited: " +:+ m
  | APITimeoutError _ => "Research request timed out after " +:+ timeout cfg +:+ "s"
  | BadRequestError _ m => "Invalid request: " +:+ m
  | APIStatusError c m =>
      if bool_decide (m = PyStr.empty) then "API error " +:+ PyStr.of_Z c
      else "API error " +:+ PyStr.of_Z c +:+ ": " +:+ m
  | APIConnectionError t => "Connection error: " +:+ t
  | ValueError t | OtherException t => "Research failed: " +:+ t
  end.

Definition chat_message (e : PyExn) : string :=
  match e with
  | RateLimitError _ m => "Chat rate limited: " +:+ m
  | BadRequestError c m | APIStatusError c m =>
      if bool_decide (m = PyStr.empty) then "Chat API error " +:+ PyStr.of_Z c
      else "Chat API error " +:+ PyStr.of_Z c +:+ ": " +:+ m
  | APITimeoutError t | APIConnectionError t | ValueError t
  | OtherException t => "Chat failed: " +:+ t
  end.

(** The parameters [execute] resolves from its input. *)
Definition resolved_query (input : Input) : string :=
  default PyStr.empty (in_query input).
Definition resolved_model (input : Input) : string :=
  default "sonar-pro" (in_model input).
Definition resolved_effort (cfg : Config) (input : Input) : string :=
  default (cfg_reasoning_effort cfg) (in_reasoning_effort input).
Definition resolved_max_steps (cfg : Config) (input : Input) : Z :=
  default (cfg_max_steps cfg) (in_max_steps input).
Definition resolved_instructions (input : Input) : string :=
  match in_instructions input with
  | Some i => if PyStr.truthy i then i
              else "Provide thorough, well-researched answers with citations."
  | None => "Provide thorough, well-researched answers with citations."
  end.

Definition with_mode (mode : option string) (input : Input) : Input :=
  {| in_query := in_query input; in_mode := mode; in_model := in_model input;
     in_reasoning_effort := in_reasoning_effort input;
     in_max_steps := in_max_steps input;
     in_instructions := in_instructions input |}.

(** The two requests [execute] can build from its input. *)
Definition input_research_request (cfg : Config) (input : Input)
    : ResearchRequest :=
  research_request (resolved_query input) (resolved_effort cfg input)
    (resolved_max_steps cfg input) (resolved_instructions input).
Definition input_chat_request (input : Input) : ChatRequest :=
  chat_request (resolved_query input) (resolved_model input)
    (resolved_instructions input).

(** The value under ["max_steps"] is one that [int] converts, or there is
    none. *)
Definition converts (v : option IntArg) : bool :=
  match v with
  | Some (IntRaises _) => false
  | _ => true
  end.

(** An input dictionary read as [input_schema] types it: a value under
    ["max_steps"] counts as the integer [int] makes of it. *)
Definition typed (input : Untyped.Input) : Input :=
  {| in_query := Untyped.in_query input;
     in_mode := Untyped.in_mode input;
     in_model := Untyped.in_model input;
     in_reasoning_effort := Untyped.in_reasoning_effort input;
     in_max_steps :=
       match Untyped.in_max_steps input with
       | Some (IntOk z) => Some z
       | _ => None
       end;
     in_instructions := Untyped.in_instructions input |}.

(** The dictionary with the entries of [input] and [v] under
    ["max_steps"]. *)
Definition untyped (v : option IntArg) (input : Input) : Untyped.Input :=
  {| Untyped.in_query := in_query input;
     Untyped.in_mode := in_mode input;
     Untyped.in_model := in_model input;
     Untyped.in_reasoning_effort := in_reasoning_effort input;
     Untyped.in_max_steps := v;
     Untyped.in_instructions := in_instructions input |}.

(** What [int("abc")] raises. *)
Definition not_a_number : PyExn :=
  ValueError "invalid literal for int() with base 10: 'abc'".

(** The number of upstream requests in a log. *)
Definition requests (l : list Call) : nat := length (filter is_request l).
Definition chat_requests (l : list Call) : nat := length (filter is_chat_request l).

(** ** Sample tool, inputs and services *)

Definition sample_cfg : Config :=
  {| _api_key := Some "test-key"; cfg_reasoning_effort := "medium";
     cfg_max_steps := 5; timeout := "120.0" |}.

Definition empty_input : Input :=
  {| in_query := None; in_mode := None; in_model := None;
     in_reasoning_effort := None; in_max_steps := None;
     in_instructions := None |}.

Definition query_input (q : string) : Input :=
  {| in_query := Some q; in_mode := None; in_model := None;
     in_reasoning_effort := None; in_max_steps := None;
     in_instructions := None |}.

Definition sample_response : ResponseCreateResponse :=
  {| resp_model := "sonar"; resp_status := "completed"; resp_error := None;
     resp_output := [ text_message "Answer." [] ]; resp_usage := None |}.

Definition sample_chat : ChatCompletion :=
  {| choices :=
       Some [ {| message := {| msg_content := Some "Chat answer.";
                               msg_citations := None |} |} ];
     chat_usage := None |}.

(** A service that answers every request. *)
Definition healthy : Upstream :=
  {| responses_create := fun _ _ => inr sample_response;
     chat_completions_create := fun _ _ => inr sample_chat |}.

(** A service whose research endpoint fails with [e] and whose chat
    endpoint answers. *)
Definition research_down (e : PyExn) : Upstream :=
  {| responses_create := fun _ _ => inl e;
     chat_completions_create := fun _ _ => inr sample_chat |}.

(** A service that fails every request with [e]. *)
Definition all_down (e : PyExn) : Upstream :=
  {| responses_create := fun _ _ => inl e;
     chat_completions_create := fun _ _ => inl e |}.

Definition too_many_requests : PyExn := APIStatusError 429 "Too Many Requests".
Definition invalid_schema : PyExn := OtherException "invalid schema".

(** A tool used, closed twice, and used again. *)
Definition reuse_after_close : M ToolResult :=
  _ <- execute sample_cfg healthy (query_input "first") ;;
  _ <- close ;;
  _ <- close ;;
  execute sample_cfg healthy (query_input "second").

(** Handles in use or closed were all constructed before. *)
Definition handles_ok (s : State) : Prop :=
  (forall h, _client s = Some h -> (h < constructed s)%nat) /\
  (forall h, h ∈ closed s -> (h < constructed s)%nat).

(** A tool whose client has been created. *)
Definition connected_state : State :=
  {| _client := Some 0%nat; constructed := 1%nat; closed := []; calls := [] |}.

(** ** Vocabulary for the de-duplication proof *)

(** One step of the walk, on the citation list alone. *)
Definition push (acc : list Citation) (c : Citation) : list Citation :=
  if bool_decide (url c ∈ url <$> acc) then acc else acc ++ [c].

(** [seen_urls] holds exactly the urls of the citations collected so far. *)
Definition seen_inv (st : ParseState) : Prop :=
  forall u, u ∈ seen_urls st <-> u ∈ url <$> st_citations st.

(** The step [f] adds to the state what [push] adds for the candidates
    [g x], and keeps [seen_inv]. *)
Definition tracks {A} (f : ParseState -> A -> ParseState)
    (g : A -> list Citation) : Prop :=
  forall st x, seen_inv st ->
    st_citations (f st x) = fold_left push (g x) (st_citations st) /\
    seen_inv (f st x).

(** The exception raised by the [client] property without an api key. *)
Definition no_api_key : PyExn :=
  ValueError "api_key must be provided for API calls".

(** ** Text blocks of a deep-research response *)

(** The text a content block contributes: its [text] when the block is of a
    text type and the text is a non-empty string. *)
Definition content_item_texts (c : ContentItem) : list string :=
  if is_text_type (ci_type c) then
    match getattr (ci_text c) (Some PyStr.empty) with
    | Some t => if PyStr.truthy t then [t] else []
    | None => []
    end
  else [].

Definition output_item_texts (o : OutputItem) : list string :=
  if bool_decide (oi_type o = Some "message")
  then flat_map content_item_texts (default [] (oi_content o))
  else [].

Definition texts (r : ResponseCreateResponse) : list string :=
  flat_map output_item_texts (resp_output r).

(** ** Citations of a chat response *)

(** The urls a chat response cites: the [citations] of the message of its
    first choice. *)
Definition chat_urls (resp : ChatCompletion) : list string :=
  match choices resp with
  | Some (c :: _) => default [] (msg_citations (message c))
  | _ => []
  end.

(** Keep the first occurrence of each string, in order. *)
Fixpoint first_urls (us : list string) : list string :=
  match us with
  | [] => []
  | u :: us' => u :: filter (fun v => v <> u) (first_urls us')
  end.

Definition chat_citation (u : string) : Citation :=
  {| url := u; title := "Citation"; category := _categorize_url u |}.

(** ** Sessions with a tool *)

Definition call_handle (c : Call) : nat :=
  match c with
  | ResponsesCreate h _ | ChatCompletionsCreate h _ | ClientClose h => h
  end.

(** No call is made on a handle after that handle was closed. *)
Definition no_use_after_close (l : list Call) : Prop :=
  forall l1 l2 h c,
    l = l1 ++ ClientClose h :: l2 -> c ∈ l2 -> call_handle c <> h.

(** What a user does with a tool instance. *)
Inductive Op :=
| OpExecute (input : Input)
| OpClose.

Definition run_op (cfg : Config) (up : Upstream) (s : State) (op : Op) : State :=
  match op with
  | OpExecute input => (execute cfg up input s).2
  | OpClose => (close s).2
  end.

Definition run_ops (cfg : Config) (up : Upstream) (ops : list Op) (s : State)
    : State :=
  fold_left (run_op cfg up) ops s.

(** What holds of the state of a tool between operations. *)
Definition session_inv (s : State) : Prop :=
  handles_ok s /\
  (forall h, _client s = Some h -> h ∉ closed s) /\
  NoDup (closed s) /\
  (forall c, c ∈ calls s -> (call_handle c < constructed s)%nat) /\
  (forall h, ClientClose h ∈ calls s -> h ∈ closed s) /\
  no_use_after_close (calls s).

(** The state after logging the calls [new], oldest first. *)
Definition log_calls (new : list Call) (s : State) : State :=
  fold_left (fun s c => log_call c s) new s.

(** ** Vocabulary for the preset variant *)

(** The request the preset variant makes from its input. *)
Definition preset_request (cfg : PresetTool.ToolConfig)
    (input : PresetTool.Input) : PresetTool.Request :=
  {| PresetTool.req_input := default PyStr.empty (PresetTool.p_query input);
     PresetTool.req_preset :=
       default (PresetTool.tc_preset cfg) (PresetTool.p_preset input);
     PresetTool.req_effort :=
       default (PresetTool.tc_reasoning_effort cfg)
         (PresetTool.p_reasoning_effort input);
     PresetTool.req_max_steps :=
       match PresetTool.p_max_steps input with
       | Some (IntOk z) => z
       | _ => PresetTool.tc_max_steps cfg
       end;
     PresetTool.req_tools := ["web_search"; "fetch_url"];
     PresetTool.req_instructions :=
       match PresetTool.p_instructions input with
       | Some i =>
           if PyStr.truthy i then i
           else "Provide thorough, well-researched answers with citations."
       | None => "Provide thorough, well-researched answers with citations."
       end |}.

(** The error messages of the preset variant, one per failure kind. *)
Definition preset_message (cfg : PresetTool.ToolConfig) (e : PyExn) : string :=
  match e with
  | RateLimitError _ m => "Rate limited: " +:+ m
  | APITimeoutError _ =>
      "Research request timed out after " +:+ PresetTool.tc_timeout cfg +:+ "s"
  | BadRequestError c m | APIStatusError c m =>
      if bool_decide (m = PyStr.empty) then "API error: " +:+ PyStr.of_Z c
      else "API error: " +:+ PyStr.of_Z c +:+ " - " +:+ m
  | APIConnectionError t => "Connection error: " +:+ t
  | ValueError t | OtherException t => "Research failed: " +:+ t
  end.

(** The state of the preset tool after one more call. *)
Definition preset_log (c : PresetTool.Call) (s : PresetTool.State)
    : PresetTool.State :=
  {| PresetTool.st_client := PresetTool.st_client s;
     PresetTool.st_constructed := PresetTool.st_constructed s;
     PresetTool.st_closed := PresetTool.st_closed s;
     PresetTool.st_calls := PresetTool.st_calls s ++ [c] |}.

Definition preset_sample_cfg : PresetTool.ToolConfig :=
  {| PresetTool.tc_api_key := Some "test-key";
     PresetTool.tc_preset := "pro-search";
     PresetTool.tc_reasoning_effort := "medium";
     PresetTool.tc_max_steps := 5;
     PresetTool.tc_timeout := "120.0" |}.

Definition preset_query_input (q : string) : PresetTool.Input :=
  {| PresetTool.p_query := Some q; PresetTool.p_preset := None;
     PresetTool.p_reasoning_effort := None; PresetTool.p_max_steps := None;
     PresetTool.p_instructions := None |}.

(** * Properties *)

(** ** Sanity checks *)

Example categorize_arxiv :
  _categorize_url "https://ARXIV.org/abs/2301.00001" = academic.
Proof. reflexivity. Qed.

Example str_of_Z_examples :
  PyStr.of_Z 0 = "0" /\ PyStr.of_Z 429 = "429" /\ PyStr.of_Z (-5) = "-5".
Proof. repeat split; reflexivity. Qed.


(** ** Strings *)

Lemma startswith_spec p s :
  PyStr.startswith p s = true <-> exists post, s = p +:+ post.
Proof.
  revert s. induction p as [|c p IH]; intros s; simpl.
  - split; [intros _; by exists s | done].
  - destruct s as [|d s]; simpl.
    + split; [done | intros [post H]; discriminate].
    + rewrite andb_true_iff, bool_decide_eq_true, IH. split.
      * intros [-> [post ->]]. by exists post.
      * intros [post H]. injection H as -> ->. split; [done | by exists post].
Qed.

Lemma contains_spec p s : PyStr.contains p s = true <-> substring p s.
Proof.
  induction s as [|d s IH]; simpl.
  - rewrite orb_false_r, startswith_spec. split.
    + intros [post H]. by exists EmptyString, post.
    + intros [pre [post H]]. destruct pre; [by exists post | discriminate].
  - rewrite orb_true_iff, startswith_spec, IH. split.
    + intros [[post H] | [pre [post H]]].
      * by exists EmptyString, post.
      * exists (String d pre), post. simpl. by rewrite H.
    + intros [pre [post H]]. destruct pre as [|c pre]; simpl in H.
      * left. by exists post.
      * right. exists pre, post. by injection H.
Qed.

Lemma any_in_spec tbl u :
  PyStr.any_in tbl (PyStr.lower u) = true <-> matches tbl u.
Proof.
  unfold PyStr.any_in, matches. rewrite existsb_exists. split.
  - intros (p & Hin & Hc). exists p. split; [by apply list_elem_of_In|].
    by apply contains_spec.
  - intros (p & Hin & Hc). exists p. split; [by apply list_elem_of_In|].
    by apply contains_spec.
Qed.

Lemma any_in_false tbl u :
  PyStr.any_in tbl (PyStr.lower u) = false <-> ~ matches tbl u.
Proof. rewrite <- any_in_spec. by destruct (PyStr.any_in _ _). Qed.

Lemma lower_app a b : PyStr.lower (a +:+ b) = PyStr.lower a +:+ PyStr.lower b.
Proof. induction a as [|c a IH]; simpl; [done | by rewrite IH]. Qed.

Lemma lower_upper_ascii c : PyStr.lower_ascii (PyStr.upper_ascii c) = PyStr.lower_ascii c.
Proof. by destruct c as [[] [] [] [] [] [] [] []]. Qed.

Lemma lower_upper s : PyStr.lower (PyStr.upper s) = PyStr.lower s.
Proof.
  induction s as [|c s IH]; simpl; [done|].
  by rewrite lower_upper_ascii, IH.
Qed.

(** A lower-case pattern that occurs in [u] occurs in [u.lower()]. *)
Lemma substring_lower p u :
  PyStr.lower p = p -> substring p u -> substring p (PyStr.lower u).
Proof.
  intros Hp (pre & post & ->). exists (PyStr.lower pre), (PyStr.lower post).
  by rewrite !lower_app, Hp.
Qed.

Lemma matches_of_substring tbl p u :
  p ∈ tbl -> PyStr.lower p = p -> substring p u -> matches tbl u.
Proof. intros Hin Hp Hs. exists p. split; [done | by apply substring_lower]. Qed.

(** ** C4: the URL classifier *)

(** The classifier as the priority rule it implements. *)
Lemma _categorize_url_priority (u : string) :
  (_categorize_url u = academic <-> matches academic_domains u) /\
  (_categorize_url u = docs <->
     ~ matches academic_domains u /\ matches docs_patterns u) /\
  (_categorize_url u = news <->
     ~ matches academic_domains u /\ ~ matches docs_patterns u /\
     matches news_domains u) /\
  (_categorize_url u = other <->
     ~ matches academic_domains u /\ ~ matches docs_patterns u /\
     ~ matches news_domains u).
Proof.
  unfold _categorize_url. cbv zeta.
  rewrite <- !any_in_false, <- !any_in_spec.
  destruct (PyStr.any_in academic_domains _), (PyStr.any_in docs_patterns _),
    (PyStr.any_in news_domains _); intuition (discriminate || congruence).
Qed.

(** C4, as stated, fails: a URL that contains "github.com" is not always
    [docs] and one that contains "techcrunch" is not always [news], because
    an earlier rule table may match first. *)
Lemma categorize_url_later_rule_shadowed :
  PyStr.contains "github.com" "https://github.com/papers/arxiv.org-mirror" = true /\
  _categorize_url "https://github.com/papers/arxiv.org-mirror" = academic /\
  PyStr.contains "techcrunch" "https://api.techcrunch.com/feed" = true /\
  _categorize_url "https://api.techcrunch.com/feed" = docs.
Proof. repeat split; vm_compute; reflexivity. Qed.

(** C4, amended.  On ASCII strings, where [PyStr.lower] and [PyStr.upper]
    are Python's [str.lower] and [str.upper], [_categorize_url] is a total
    function to the four categories that depends only on the lower-cased
    URL (so it is case-insensitive) and checks the rule tables in the order
    academic, docs, news, first match winning, by substring containment.
    An ASCII URL containing "arxiv.org" is [academic]; one containing
    "github.com" is [docs] unless an academic entry matches; one containing
    "techcrunch" is [news] unless an academic or docs entry matches; one
    matching no entry is [other].  Nothing is stated of strings with
    characters beyond ASCII, whose case mapping is not modelled. *)
Theorem categorize_url_spec (u : string) :
  PyStr.isascii u = true ->
  (forall u', PyStr.isascii u' = true -> PyStr.lower u' = PyStr.lower u ->
     _categorize_url u' = _categorize_url u) /\
  _categorize_url (PyStr.upper u) = _categorize_url u /\
  (_categorize_url u = academic <-> matches academic_domains u) /\
  (_categorize_url u = docs <->
     ~ matches academic_domains u /\ matches docs_patterns u) /\
  (_categorize_url u = news <->
     ~ matches academic_domains u /\ ~ matches docs_patterns u /\
     matches news_domains u) /\
  (_categorize_url u = other <->
     ~ matches academic_domains u /\ ~ matches docs_patterns u /\
     ~ matches news_domains u) /\
  (substring "arxiv.org" u -> _categorize_url u = academic) /\
  (substring "github.com" u -> ~ matches academic_domains u ->
     _categorize_url u = docs) /\
  (substring "techcrunch" u -> ~ matches academic_domains u ->
     ~ matches docs_patterns u -> _categorize_url u = news).
Proof.
  intros _.
  destruct (_categorize_url_priority u) as (Ha & Hd & Hn & Ho).
  split; [|split].
  - intros u' _ Hu. unfold _categorize_url. by rewrite Hu.
  - unfold _categorize_url. by rewrite lower_upper.
  - do 4 (split; [done|]). split; [|split].
    + intros Hs. apply Ha.
      apply (matches_of_substring _ "arxiv.org"); [apply list_elem_of_In; simpl; tauto | done | done].
    + intros Hs Hna. apply Hd. split; [done|].
      apply (matches_of_substring _ "github.com"); [apply list_elem_of_In; simpl; tauto | done | done].
    + intros Hs Hna Hnd. apply Hn. do 2 (split; [done|]).
      apply (matches_of_substring _ "techcrunch"); [apply list_elem_of_In; simpl; tauto | done | done].
Qed.

Lemma categorize_url_spec_witness :
  _categorize_url "https://github.com/rocq-prover/rocq" = docs /\
  _categorize_url "HTTPS://GITHUB.COM/ROCQ-PROVER/ROCQ" = docs.
Proof.
  destruct (categorize_url_spec "https://github.com/rocq-prover/rocq" eq_refl)
    as (Hlow & _ & _ & _ & _ & _ & _ & Hgit & _).
  assert (Hdocs : _categorize_url "https://github.com/rocq-prover/rocq" = docs).
  { apply Hgit.
    - by exists "https://", "/rocq-prover/rocq".
    - by apply any_in_false. }
  split; [exact Hdocs|].
  rewrite <- Hdocs. apply Hlow; reflexivity.
Defined.

(** ** C2: citation de-duplication *)

Lemma tracks_fold {A} (f : ParseState -> A -> ParseState) g :
  tracks f g -> tracks (fun st l => fold_left f l st) (flat_map g).
Proof.
  intros Hf st l. revert st. induction l as [|x l IH]; intros st Hinv; simpl.
  - done.
  - destruct (Hf st x Hinv) as [Hc Hinv'].
    destruct (IH _ Hinv') as [Hc' Hinv''].
    split; [|done]. by rewrite fold_left_app, <- Hc.
Qed.

Lemma add_citation_tracks u t st :
  seen_inv st ->
  st_citations (add_citation u t st) =
    fold_left push (candidate u t) (st_citations st) /\
  seen_inv (add_citation u t st).
Proof.
  intros Hinv. unfold add_citation, candidate.
  destruct u as [u|]; [|done].
  destruct (PyStr.truthy u); simpl; [|done].
  unfold push; simpl.
  case_bool_decide as Hseen; simpl.
  - rewrite bool_decide_eq_false_2 by (intros Hx; by apply Hseen, Hinv).
    split; [done|]. intros v; simpl.
    rewrite fmap_app, elem_of_app, elem_of_union, elem_of_singleton, (Hinv v).
    simpl. rewrite list_elem_of_singleton. tauto.
  - rewrite bool_decide_eq_true_2 by (by apply Hinv). done.
Qed.

Lemma parse_annotation_tracks : tracks parse_annotation annotation_candidates.
Proof. intros st a Hinv. by apply add_citation_tracks. Qed.

Lemma parse_search_result_tracks : tracks parse_search_result search_candidates.
Proof. intros st a Hinv. by apply add_citation_tracks. Qed.

Lemma parse_fetch_result_tracks : tracks parse_fetch_result fetch_candidates.
Proof. intros st a Hinv. by apply add_citation_tracks. Qed.

Lemma append_text_citations t st :
  st_citations (append_text t st) = st_citations st /\
  seen_urls (append_text t st) = seen_urls st.
Proof. unfold append_text. destruct t as [t|]; [destruct (PyStr.truthy t)|]; done. Qed.

Lemma parse_content_item_tracks :
  tracks parse_content_item content_item_candidates.
Proof.
  intros st c Hinv. unfold parse_content_item, content_item_candidates.
  destruct (is_text_type (ci_type c)); [|done].
  destruct (append_text_citations (getattr (ci_text c) (Some PyStr.empty)) st)
    as [Hc Hs].
  rewrite <- Hc. apply (tracks_fold _ _ parse_annotation_tracks).
  intros u. by rewrite Hc, Hs.
Qed.

Lemma parse_output_item_tracks :
  tracks parse_output_item output_item_candidates.
Proof.
  intros st o Hinv. unfold parse_output_item, output_item_candidates.
  repeat case_bool_decide; [| | |done].
  - by apply (tracks_fold _ _ parse_content_item_tracks).
  - by apply (tracks_fold _ _ parse_search_result_tracks).
  - by apply (tracks_fold _ _ parse_fetch_result_tracks).
Qed.

Lemma parse_response_push r :
  citations (_parse_response r) = fold_left push (candidates r) [].
Proof.
  unfold _parse_response, candidates; simpl.
  destruct (tracks_fold _ _ parse_output_item_tracks parse_init (resp_output r))
    as [Hc _]; [|exact Hc].
  intros u; simpl. rewrite elem_of_empty, elem_of_nil. tauto.
Qed.

Lemma push_fold_first_occurrences cands acc :
  fold_left push cands acc =
  acc ++ filter (fun c => url c ∉ url <$> acc) (first_occurrences cands).
Proof.
  revert acc. induction cands as [|c cs IH]; intros acc; simpl.
  - by rewrite filter_nil, app_nil_r.
  - rewrite IH. unfold push. rewrite filter_cons. case_bool_decide as Hin.
    + rewrite decide_False by tauto. f_equal.
      rewrite list_filter_filter. apply list_filter_iff.
      intros c'. split; [|tauto]. intros Hc'. split; [done|].
      intros Heq. apply Hc'. by rewrite Heq.
    + rewrite decide_True by done. rewrite <- app_assoc. simpl. do 2 f_equal.
      rewrite list_filter_filter. apply list_filter_iff.
      intros c'. rewrite fmap_app, elem_of_app. simpl.
      rewrite list_elem_of_singleton. tauto.
Qed.

Lemma first_occurrences_sublist cs : sublist (first_occurrences cs) cs.
Proof.
  induction cs as [|c cs IH]; simpl; [done|].
  apply sublist_skip. etrans; [apply sublist_filter | done].
Qed.

Lemma first_occurrences_NoDup cs : NoDup (url <$> first_occurrences cs).
Proof.
  induction cs as [|c cs IH]; simpl; [constructor|].
  apply NoDup_cons. split.
  - rewrite list_elem_of_fmap. intros (c' & Heq & Hin).
    apply list_elem_of_filter in Hin as [Hne _]. by apply Hne.
  - eapply sublist_NoDup; [exact IH|].
    apply fmap_sublist, sublist_filter.
Qed.

(** A citation is kept exactly when it is a candidate that no candidate
    with the same url precedes. *)
Lemma first_occurrences_elem cs c :
  c ∈ first_occurrences cs <->
  exists pre post, cs = pre ++ c :: post /\ url c ∉ url <$> pre.
Proof.
  induction cs as [|x cs IH]; simpl.
  - rewrite elem_of_nil. split; [done|].
    intros (pre & post & H & _). by destruct pre.
  - rewrite elem_of_cons, list_elem_of_filter, IH. split.
    + intros [->|[Hne (pre & post & -> & Hpre)]].
      * exists [], cs. split; [done|]. simpl. apply not_elem_of_nil.
      * exists (x :: pre), post. split; [done|]. simpl.
        rewrite not_elem_of_cons. done.
    + intros (pre & post & H & Hpre). destruct pre as [|y pre]; simpl in *.
      * left. congruence.
      * injection H as -> ->. apply not_elem_of_cons in Hpre as [Hne Hpre].
        right. split; [done|]. by exists pre, post.
Qed.

(** C2.  The citations of a normalised deep-research response are the
    candidates met during the walk over all output items (message
    annotations, search results, fetched urls) with, for each url, only the
    first candidate kept: later candidates with a url seen before are
    dropped, nothing is merged or overwritten, and the order is the order of
    first occurrence.  Two annotations with the same url and different
    titles give exactly one citation, with the title seen first. *)
Theorem parse_response_first_seen_wins :
  (forall r : ResponseCreateResponse,
     let cs := citations (_parse_response r) in
     cs = first_occurrences (candidates r) /\
     NoDup (url <$> cs) /\
     sublist cs (candidates r) /\
     (forall c, c ∈ cs <->
        exists pre post,
          candidates r = pre ++ c :: post /\ url c ∉ url <$> pre)) /\
  (forall u t1 t2 : string,
     u <> PyStr.empty -> t1 <> PyStr.empty -> t1 <> u -> t1 <> t2 ->
     citations (_parse_response (two_annotation_response u t1 t2)) =
     [ {| url := u; title := t1; category := _categorize_url u |} ]).
Proof.
  assert (Hgen : forall r,
    citations (_parse_response r) = first_occurrences (candidates r)).
  { intros r. rewrite parse_response_push, push_fold_first_occurrences. simpl.
    induction (first_occurrences (candidates r)) as [|c l IH]; [done|].
    rewrite filter_cons_True by apply not_elem_of_nil. by rewrite IH. }
  split.
  - intros r cs. subst cs. rewrite Hgen.
    split; [done|]. split; [apply first_occurrences_NoDup|].
    split; [apply first_occurrences_sublist|].
    intros c. apply first_occurrences_elem.
  - intros u t1 t2 Hu Ht1 Hne _. rewrite Hgen.
    unfold candidates, two_annotation_response; simpl.
    unfold content_item_candidates, annotation_candidates, candidate; simpl.
    destruct u as [|a u]; [done|]. simpl.
    unfold display_title. destruct t1 as [|b t1]; [done|]. simpl.
    rewrite bool_decide_eq_false_2 by done. simpl.
    rewrite filter_cons_False; [done|]. simpl. tauto.
Qed.

Lemma parse_response_first_seen_wins_witness :
  citations (_parse_response
    (two_annotation_response "https://example.com/same" "Same URL"
       "Same URL Again")) =
  [ {| url := "https://example.com/same"; title := "Same URL";
       category := other |} ].
Proof.
  apply (proj2 parse_response_first_seen_wins
           "https://example.com/same" "Same URL" "Same URL Again");
    discriminate.
Defined.

(** ** C6: usage accounting *)

Lemma usage_dict_lookup i o t :
  usage_dict i o t !! "input_tokens" = Some i /\
  usage_dict i o t !! "output_tokens" = Some o /\
  usage_dict i o t !! "total_tokens" = Some t.
Proof. unfold usage_dict. repeat split; by simplify_map_eq. Qed.

(** C6.  For a deep-research response with a usage record the total is the
    sum of the input and output counts, each taken as 0 when absent; for a
    chat response the total is the one the response reports (0 when
    absent), whatever the prompt and completion counts are. *)
Theorem usage_total_tokens :
  (forall r u, resp_usage r = Some u ->
     usage (_parse_response r) !! "input_tokens" = Some (default 0 (input_tokens u)) /\
     usage (_parse_response r) !! "output_tokens" = Some (default 0 (output_tokens u)) /\
     usage (_parse_response r) !! "total_tokens" =
       Some (default 0 (input_tokens u) + default 0 (output_tokens u))) /\
  (forall model resp u, chat_usage resp = Some u ->
     usage (chat_result model resp) !! "input_tokens" = Some (default 0 (prompt_tokens u)) /\
     usage (chat_result model resp) !! "output_tokens" = Some (default 0 (completion_tokens u)) /\
     usage (chat_result model resp) !! "total_tokens" = Some (default 0 (total_tokens u))).
Proof.
  split.
  - intros r u Hu. unfold _parse_response; simpl. rewrite Hu.
    destruct (input_tokens u), (output_tokens u); apply usage_dict_lookup.
  - intros m resp u Hu. unfold chat_result.
    destruct (match choices resp with Some (c :: _) => _ | _ => _ end) as [c cs].
    simpl. rewrite Hu.
    destruct (prompt_tokens u), (completion_tokens u), (total_tokens u);
      apply usage_dict_lookup.
Qed.

Lemma usage_total_tokens_witness :
  usage (_parse_response research_usage_example) !! "total_tokens" = Some 300 /\
  usage (chat_result "sonar-pro" chat_usage_example) !! "total_tokens" = Some 999.
Proof.
  split.
  - apply (proj1 usage_total_tokens research_usage_example usage_100_200 eq_refl).
  - apply (proj2 usage_total_tokens "sonar-pro" chat_usage_example
             usage_10_20_999 eq_refl).
Defined.

(** ** C5: the references section *)

Lemma enumerate_imap {A} (start : nat) (l : list A) :
  enumerate start l = imap (fun i x => ((start + i)%nat, x)) l.
Proof.
  revert start. induction l as [|x l IH]; intros start; simpl; [done|].
  rewrite Nat.add_0_r, IH. f_equal. apply imap_ext. intros i y _. simpl.
  f_equal. lia.
Qed.

Lemma numbered_position cs n c :
  (n, c) ∈ numbered cs <-> (1 <= n)%nat /\ cs !! (n - 1)%nat = Some c.
Proof.
  unfold numbered. rewrite elem_of_lookup_imap. split.
  - intros (i & x & Heq & Hl). injection Heq as -> ->.
    split; [lia|]. by replace (S i - 1)%nat with i by lia.
  - intros [Hn Hl]. exists (n - 1)%nat, c. split; [|done]. f_equal. lia.
Qed.

Lemma by_category_fold l m k :
  fold_left by_category_append l m k =
  m k ++ filter (fun ic : nat * Citation => category ic.2 = k) l.
Proof.
  revert m. induction l as [|x l IH]; intros m; simpl.
  - by rewrite filter_nil, app_nil_r.
  - rewrite IH, filter_cons. unfold by_category_append.
    case_bool_decide as Hk.
    + rewrite decide_True by done. by rewrite <- app_assoc.
    + rewrite decide_False by done. done.
Qed.

Lemma truthy_false s : PyStr.truthy s = false <-> s = PyStr.empty.
Proof. by destruct s. Qed.

Lemma format_entry_lines parts ic :
  format_entry parts ic = parts ++ entry_lines ic.
Proof.
  unfold format_entry, entry_lines.
  destruct (url ic.2) as [|a u]; simpl; [by rewrite app_nil_r | done].
Qed.

Lemma format_entry_fold members parts :
  fold_left format_entry members parts = parts ++ flat_map entry_lines members.
Proof.
  revert parts. induction members as [|ic l IH]; intros parts; simpl.
  - by rewrite app_nil_r.
  - by rewrite IH, format_entry_lines, <- app_assoc.
Qed.

Lemma format_category_lines cs parts k :
  format_category (fold_left by_category_append (enumerate 1 cs) by_category_init)
    parts (k, heading k) =
  parts ++ group_lines cs k.
Proof.
  unfold format_category, group_lines, numbered. simpl.
  rewrite by_category_fold, enumerate_imap. simpl.
  destruct (filter _ _) as [|ic l]; [by rewrite app_nil_r|].
  rewrite format_entry_fold, format_entry_lines.
  rewrite <- !app_assoc. done.
Qed.

Lemma format_parts_references r :
  citations r <> [] ->
  format_parts r =
  content r :: references_lines (citations r) ++ usage_lines (usage r).
Proof.
  intros Hne. unfold format_parts, references_lines, usage_lines.
  destruct (citations r) as [|c cs] eqn:Hcs; [done|].
  change category_names with
    [ (academic, heading academic); (news, heading news);
      (docs, heading docs); (other, heading other) ].
  cbn [fold_left]. rewrite !format_category_lines.
  case_bool_decide; simpl; rewrite <- ?app_assoc; [by rewrite app_nil_r | done].
Qed.



(** ** The orchestrator: attempts *)

Section Attempts.

Variable cfg : Config.
Variable up : Upstream.

(** The [client] property either yields a handle without touching the
    log, or raises for want of an api key and changes nothing. *)
Lemma client_cases s :
  (exists h s1, client cfg s = (Ret h, s1) /\ calls s1 = calls s /\
     _client s1 = Some h /\ closed s1 = closed s) \/
  (client cfg s = (Raise no_api_key, s) /\ _client s = None /\
     _api_key cfg = None).
Proof.
  unfold client. destruct (_client s) as [h|] eqn:Hc.
  - left. by exists h, s.
  - destruct (_api_key cfg) eqn:Hk.
    + left. by eexists _, _.
    + by right.
Qed.

Lemma _execute_research_ready q eff steps instr s h s1 :
  client cfg s = (Ret h, s1) ->
  _execute_research cfg up q eff steps instr s =
  (Ret (research_outcome cfg
          (responses_create up (calls s1)
             (research_request q eff steps instr))),
   log_call (ResponsesCreate h (research_request q eff steps instr)) s1).
Proof.
  intros Hc.
  unfold _execute_research, try_except, _make_research_request, bind,
    call_responses_create.
  rewrite Hc. fold (research_request q eff steps instr).
  by destruct (responses_create up (calls s1) _).
Qed.

Lemma _execute_research_no_client q eff steps instr s e s1 :
  client cfg s = (Raise e, s1) ->
  _execute_research cfg up q eff steps instr s =
  (Ret (research_handler cfg e), s1).
Proof.
  intros Hc.
  unfold _execute_research, try_except, _make_research_request, bind.
  by rewrite Hc.
Qed.

Lemma _execute_chat_ready q model instr note s h s1 :
  client cfg s = (Ret h, s1) ->
  _execute_chat cfg up q model instr note s =
  (Ret (chat_outcome model note
          (chat_completions_create up (calls s1)
             (chat_request q model instr))),
   log_call (ChatCompletionsCreate h (chat_request q model instr)) s1).
Proof.
  intros Hc.
  unfold _execute_chat, try_except, _make_chat_request, bind,
    call_chat_completions_create.
  rewrite Hc. fold (chat_request q model instr).
  by destruct (chat_completions_create up (calls s1) _).
Qed.

Lemma _execute_chat_no_client q model instr note s e s1 :
  client cfg s = (Raise e, s1) ->
  _execute_chat cfg up q model instr note s = (Ret (chat_handler e), s1).
Proof.
  intros Hc. unfold _execute_chat, try_except, _make_chat_request, bind.
  by rewrite Hc.
Qed.

(** Every research failure becomes a failed outcome with the message of
    its kind. *)
Lemma research_handler_message e :
  success (research_handler cfg e) = false /\
  tr_error (research_handler cfg e) = Some (research_message cfg e).
Proof.
  destruct e as [c m| |c m|c m| | |]; try done.
  simpl. unfold status_error_msg. by destruct m.
Qed.

Lemma chat_handler_message e :
  success (chat_handler e) = false /\
  tr_error (chat_handler e) = Some (chat_message e).
Proof.
  destruct e as [c m| |c m|c m| | |]; try done;
    simpl; unfold status_error_msg; by destruct m.
Qed.

(** Both attempts return; neither raises. *)
Lemma _execute_research_returns q eff steps instr s :
  exists r s', _execute_research cfg up q eff steps instr s = (Ret r, s').
Proof.
  destruct (client_cases s) as [(h & s1 & Hc & _)|[Hc _]].
  - eexists _, _. by apply _execute_research_ready.
  - eexists _, _. by apply _execute_research_no_client.
Qed.

Lemma _execute_chat_returns q model instr note s :
  exists r s', _execute_chat cfg up q model instr note s = (Ret r, s').
Proof.
  destruct (client_cases s) as [(h & s1 & Hc & _)|[Hc _]].
  - eexists _, _. by apply _execute_chat_ready.
  - eexists _, _. by apply _execute_chat_no_client.
Qed.

(** [execute] on a non-empty query, by mode. *)
Lemma execute_modes input s :
  truthy (in_query input) = true ->
  execute cfg up input s =
  if bool_decide (in_mode input = Some "chat") then
    _execute_chat cfg up (resolved_query input) (resolved_model input)
      (resolved_instructions input) PyStr.empty s
  else if bool_decide (in_mode input = Some "research") then
    _execute_research cfg up (resolved_query input)
      (resolved_effort cfg input) (resolved_max_steps cfg input)
      (resolved_instructions input) s
  else
    auto_mode cfg up (resolved_query input) (resolved_model input)
      (resolved_effort cfg input) (resolved_max_steps cfg input)
      (resolved_instructions input) s.
Proof.
  intros Hq. unfold execute. rewrite Hq. simpl.
  replace (if truthy (in_instructions input)
           then default PyStr.empty (in_instructions input)
           else "Provide thorough, well-researched answers with citations.")
    with (resolved_instructions input)
    by (unfold resolved_instructions; destruct (in_instructions input) as [i|];
        [simpl; by destruct (PyStr.truthy i) | done]).
  destruct (in_mode input) as [m|]; simpl; [|done].
  repeat case_bool_decide; (reflexivity || congruence).
Qed.

End Attempts.

(** ** C1: the fallback policy of auto mode *)

Lemma should_fallback_spec m :
  should_fallback m = true <->
  exists t, t ∈ fallback_triggers /\ substring t (PyStr.lower m).
Proof.
  unfold should_fallback, PyStr.any_in. rewrite existsb_exists. split.
  - intros (t & Hin & Hc). exists t.
    split; [by apply list_elem_of_In | by apply contains_spec].
  - intros (t & Hin & Hc). exists t.
    split; [by apply list_elem_of_In | by apply contains_spec].
Qed.

Lemma client_again cfg s h s1 :
  client cfg s = (Ret h, s1) -> forall c, client cfg (log_call c s1) = (Ret h, log_call c s1).
Proof.
  intros Hc c. destruct (client_cases cfg s) as [(h' & s1' & Hc' & _ & Hcl & _)|[Hc' _]];
    [|congruence].
  rewrite Hc in Hc'. injection Hc' as <- <-.
  unfold client, log_call; simpl. by rewrite Hcl.
Qed.

(** What a research attempt leaves behind: either no client could be made
    and nothing was sent, or one request was sent on a usable handle. *)
Lemma research_attempt_cases cfg up q eff steps instr s r1 s1 :
  _execute_research cfg up q eff steps instr s = (Ret r1, s1) ->
  (r1 = research_handler cfg no_api_key /\ s1 = s) \/
  (exists h s0,
     client cfg s = (Ret h, s0) /\
     r1 = research_outcome cfg
            (responses_create up (calls s0) (research_request q eff steps instr)) /\
     s1 = log_call (ResponsesCreate h (research_request q eff steps instr)) s0 /\
     calls s1 = calls s ++ [ResponsesCreate h (research_request q eff steps instr)]).
Proof.
  intros Hr. destruct (client_cases cfg s) as [(h & s0 & Hc & Hcalls & _)|[Hc _]].
  - right. exists h, s0. rewrite (_execute_research_ready _ _ _ _ _ _ _ _ _ Hc) in Hr.
    injection Hr as <- <-. repeat split; [done|]. simpl. by rewrite Hcalls.
  - left. rewrite (_execute_research_no_client _ _ _ _ _ _ _ _ _ Hc) in Hr.
    injection Hr as <- <-. done.
Qed.

Lemma research_outcome_failure cfg ans :
  success (research_outcome cfg ans) = false ->
  exists e, ans = inl e /\
    tr_error (research_outcome cfg ans) = Some (research_message cfg e).
Proof.
  destruct ans as [e|r]; simpl; [|done]. intros _. exists e.
  split; [done | apply research_handler_message].
Qed.

(** The fallback, once decided, is one chat request on the handle the
    research request used. *)
Lemma auto_mode_run cfg up q model eff steps instr s r1 s1 :
  _execute_research cfg up q eff steps instr s = (Ret r1, s1) ->
  auto_mode cfg up q model eff steps instr s =
  match tr_error r1 with
  | Some m =>
      if negb (success r1) && should_fallback m then
        _execute_chat cfg up q model instr (fallback_note m) s1
      else (Ret r1, s1)
  | None => (Ret r1, s1)
  end.
Proof.
  intros Hr. unfold auto_mode, bind, ret. rewrite Hr.
  destruct (success r1), (tr_error r1) as [m|]; simpl; try done.
  by destruct (should_fallback m).
Qed.

(** [auto_mode] with a client at hand, by what the service answers. *)
Lemma auto_mode_ready cfg up q model eff steps instr s h s0 :
  client cfg s = (Ret h, s0) ->
  auto_mode cfg up q model eff steps instr s =
  match responses_create up (calls s0) (research_request q eff steps instr) with
  | inr resp =>
      (Ret (ok (_format_structured_output (_parse_response resp))),
       log_calls [ResponsesCreate h (research_request q eff steps instr)] s0)
  | inl e =>
      if should_fallback (research_message cfg e) then
        (Ret (chat_outcome model (fallback_note (research_message cfg e))
                (chat_completions_create up
                   (calls s0 ++
                    [ResponsesCreate h (research_request q eff steps instr)])
                   (chat_request q model instr))),
         log_calls [ResponsesCreate h (research_request q eff steps instr);
                    ChatCompletionsCreate h (chat_request q model instr)] s0)
      else
        (Ret (research_handler cfg e),
         log_calls [ResponsesCreate h (research_request q eff steps instr)] s0)
  end.
Proof.
  intros Hc.
  rewrite (auto_mode_run _ _ _ _ _ _ _ _ _ _
             (_execute_research_ready cfg up q eff steps instr s h s0 Hc)).
  destruct (responses_create up (calls s0) _) as [e|resp]; simpl; [|done].
  destruct (research_handler_message cfg e) as [Hs He]. rewrite He, Hs. simpl.
  destruct (should_fallback (research_message cfg e)); [|done].
  by rewrite (_execute_chat_ready cfg up q model instr _ _ h _
                (client_again cfg s h s0 Hc _)).
Qed.

(** [auto_mode] when no client can be made: the research attempt fails for
    want of an api key, its message holds no trigger, nothing is sent. *)
Lemma auto_mode_no_client cfg up q model eff steps instr s :
  client cfg s = (Raise no_api_key, s) ->
  auto_mode cfg up q model eff steps instr s =
  (Ret (failure PyStr.empty
          "Research failed: api_key must be provided for API calls"), s).
Proof.
  intros Hc.
  by rewrite (auto_mode_run _ _ _ _ _ _ _ _ _ _
                (_execute_research_no_client cfg up q eff steps instr s _ _ Hc)).
Qed.

(** On a dictionary whose ["max_steps"] converts, [execute] is [execute] on
    the typed reading of the dictionary. *)
Lemma untyped_execute_typed cfg up input :
  converts (Untyped.in_max_steps input) = true ->
  Untyped.execute cfg up input = execute cfg up (typed input).
Proof.
  intros Hv. unfold Untyped.execute, execute, typed. simpl.
  destruct (truthy (Untyped.in_query input)); simpl; [|done].
  by destruct (Untyped.in_max_steps input) as [[z|e]|].
Qed.

(** What [int] raises on the value under ["max_steps"] leaves [execute],
    before anything is sent. *)
Lemma untyped_execute_int_raises cfg up input e s :
  truthy (Untyped.in_query input) = true ->
  Untyped.in_max_steps input = Some (IntRaises e) ->
  Untyped.execute cfg up input s = (Raise e, s).
Proof.
  intros Hq Hv. unfold Untyped.execute. by rewrite Hq, Hv.
Qed.

(** C1.  In auto mode the research attempt comes first.  Its success is
    returned at once.  Its failure is followed by a chat attempt exactly
    when the lower-cased error message contains "rate limit", "quota",
    "429" or "insufficient": then one chat request with the same query and
    instructions is sent, its outcome, success or failure, is the final
    outcome, and a successful answer is prefixed by the line
    "(Fallback from Research API: <message>)".  Any other failure is
    returned as it is.  At most two requests are sent, at most one of them
    a chat request. *)
Theorem auto_mode_fallback_policy cfg up q model eff steps instr s r1 s1 :
  _execute_research cfg up q eff steps instr s = (Ret r1, s1) ->
  (forall m, should_fallback m = true <->
     exists t, t ∈ [ "rate limit"; "quota"; "429"; "insufficient" ] /\
       substring t (PyStr.lower m)) /\
  (success r1 = true ->
     auto_mode cfg up q model eff steps instr s = (Ret r1, s1) /\
     exists new, calls s1 = calls s ++ new /\ requests new = 1%nat /\
       chat_requests new = 0%nat) /\
  (success r1 = false -> exists m, tr_error r1 = Some m /\
     (should_fallback m = false ->
        auto_mode cfg up q model eff steps instr s = (Ret r1, s1) /\
        exists new, calls s1 = calls s ++ new /\ (requests new <= 1)%nat /\
          chat_requests new = 0%nat) /\
     (should_fallback m = true -> exists h s0,
        client cfg s = (Ret h, s0) /\
        let rq := research_request q eff steps instr in
        let cq := chat_request q model instr in
        auto_mode cfg up q model eff steps instr s =
          (Ret (chat_outcome model (fallback_note m)
                  (chat_completions_create up (calls s1) cq)),
           log_call (ChatCompletionsCreate h cq) s1) /\
        calls s1 = calls s ++ [ResponsesCreate h rq] /\
        calls (log_call (ChatCompletionsCreate h cq) s1) =
          calls s ++ [ResponsesCreate h rq; ChatCompletionsCreate h cq])) /\
  (forall m resp,
     chat_outcome model (fallback_note m) (inr resp) =
     ok (fallback_note m +:+ PyStr.nl +:+ PyStr.nl +:+
         _format_structured_output (chat_result model resp))).
Proof.
  intros Hr. pose proof (auto_mode_run cfg up q model _ _ _ _ _ _ Hr) as Hauto.
  split; [apply should_fallback_spec|]. split; [|split].
  - intros Hs. rewrite Hauto, Hs. split; [by destruct (tr_error r1)|].
    destruct (research_attempt_cases _ _ _ _ _ _ _ _ _ Hr)
      as [[-> ->]|(h & s0 & Hc & -> & -> & Hcalls)].
    + by destruct (research_handler_message cfg no_api_key) as [Hf _];
        rewrite Hf in Hs.
    + eexists. split; [exact Hcalls | done].
  - intros Hs.
    destruct (research_attempt_cases _ _ _ _ _ _ _ _ _ Hr)
      as [[-> ->]|(h & s0 & Hc & Hr1 & Hs1 & Hcalls)].
    + exists (research_message cfg no_api_key).
      split; [apply research_handler_message|]. split; [|done].
      intros _. rewrite Hauto. split; [done|].
      exists []. rewrite app_nil_r. repeat split; unfold requests; simpl; lia.
    + assert (exists m, tr_error r1 = Some m) as [m Hm].
      { rewrite Hr1 in Hs. apply research_outcome_failure in Hs as (e & _ & He).
        rewrite Hr1. by eexists. }
      exists m. split; [done|]. rewrite Hauto, Hm, Hs. simpl. split.
      * intros ->. split; [done|]. eexists. split; [exact Hcalls|].
        split; [unfold requests; simpl; lia | done].
      * intros ->. exists h, s0. split; [done|]. cbv zeta.
        rewrite Hs1.
        rewrite (_execute_chat_ready cfg up q model instr _ _ h _
                   (client_again cfg s h s0 Hc _)).
        rewrite <- Hs1. split; [done|]. split; [done|].
        simpl. by rewrite Hcalls, <- app_assoc.
  - intros m resp. unfold chat_outcome, fallback_note. reflexivity.
Qed.

Lemma auto_mode_fallback_policy_witness :
  exists h s0,
    client sample_cfg initial_state = (Ret h, s0) /\
    calls (auto_mode sample_cfg (research_down too_many_requests)
             "q" "sonar-pro" "medium" 5 "i" initial_state).2 =
    [ ResponsesCreate h (research_request "q" "medium" 5 "i");
      ChatCompletionsCreate h (chat_request "q" "sonar-pro" "i") ].
Proof.
  destruct (auto_mode_fallback_policy sample_cfg
              (research_down too_many_requests) "q" "sonar-pro" "medium" 5 "i"
              initial_state _ _ eq_refl) as (_ & _ & Hfail & _).
  destruct (Hfail eq_refl) as (m & Hm & _ & Hfb).
  injection Hm as <-.
  destruct (Hfb eq_refl) as (h & s0 & Hc & Hauto & _ & Hcalls).
  exists h, s0. split; [exact Hc|]. rewrite Hauto. exact Hcalls.
Defined.

(** The two runs named by the specification: a research failure whose
    message holds "429" is followed by one chat request, one whose message
    is "invalid schema" by none. *)
Example auto_mode_429_and_invalid_schema :
  chat_requests
    (calls (auto_mode sample_cfg (research_down too_many_requests)
              "q" "sonar-pro" "medium" 5 "i" initial_state).2) = 1%nat /\
  chat_requests
    (calls (auto_mode sample_cfg (research_down invalid_schema)
              "q" "sonar-pro" "medium" 5 "i" initial_state).2) = 0%nat /\
  (auto_mode sample_cfg (research_down invalid_schema)
     "q" "sonar-pro" "medium" 5 "i" initial_state).1 =
  Ret (failure PyStr.empty "Research failed: invalid schema").
Proof. repeat split; vm_compute; reflexivity. Qed.

(** ** C7: the missing query *)

(** C7.  When the query is absent or empty, [execute] returns the failed
    outcome with message "Missing required parameter: query" and empty
    output, and leaves the state, hence the log of collaborator calls, as
    it was. *)
Theorem execute_missing_query cfg up input s :
  in_query input = None \/ in_query input = Some PyStr.empty ->
  execute cfg up input s =
    (Ret {| success := false; output := PyStr.empty;
            tr_error := Some "Missing required parameter: query" |}, s) /\
  calls (execute cfg up input s).2 = calls s.
Proof.
  intros Hq. unfold execute.
  destruct Hq as [-> | ->]; simpl; done.
Qed.

Lemma execute_missing_query_witness :
  execute sample_cfg healthy empty_input initial_state =
    (Ret {| success := false; output := PyStr.empty;
            tr_error := Some "Missing required parameter: query" |},
     initial_state) /\
  calls (execute sample_cfg healthy empty_input initial_state).2 = [].
Proof.
  apply (execute_missing_query sample_cfg healthy empty_input initial_state).
  by left.
Defined.

(** ** C10: mode selection *)



(** ** C9: the two variants *)

(** C9.  The classifier and the normaliser of the preset variant and of the
    fallback variant are the same functions. *)
Theorem variants_agree :
  (forall u : string, PresetVariant._categorize_url u = _categorize_url u) /\
  (forall r : ResponseCreateResponse,
     PresetVariant._parse_response r = _parse_response r).
Proof. split; intros; reflexivity. Qed.

(** ** C8: failures never escape *)

Lemma auto_mode_returns cfg up q model eff steps instr s :
  exists r s', auto_mode cfg up q model eff steps instr s = (Ret r, s').
Proof.
  destruct (_execute_research_returns cfg up q eff steps instr s)
    as (r1 & s1 & Hr).
  rewrite (auto_mode_run _ _ _ _ _ _ _ _ _ _ Hr).
  destruct (tr_error r1) as [m|]; [|by eexists _, _].
  destruct (negb (success r1) && should_fallback m); [|by eexists _, _].
  apply _execute_chat_returns.
Qed.

(** C8, as stated, fails.  A research request that meets a 429 status
    error is followed, in auto mode, by a chat request, and when that one
    is answered the outcome has [success = true].  And a value under
    ["max_steps"] that [int] rejects makes [execute] raise: the conversion
    stands before every [try]. *)
Lemma execute_outcome_not_always_failed :
  (Untyped.execute sample_cfg (research_down too_many_requests)
     (untyped None (query_input "q")) initial_state).1 =
    Ret (ok ("(Fallback from Research API: API error 429: Too Many Requests)"
             +:+ PyStr.nl +:+ PyStr.nl +:+ "Chat answer.")) /\
  Untyped.execute sample_cfg healthy
    (untyped (Some (IntRaises not_a_number)) (query_input "q")) initial_state =
    (Raise not_a_number, initial_state).
Proof. split; vm_compute; reflexivity. Qed.

(** C8, amended.  On a non-empty query and a ["max_steps"] that is absent
    or converts to an integer, [execute] returns an outcome record and
    never raises, whatever the service does.  The record is that of the
    last attempt made, and an attempt that meets a failure of the service,
    of whatever kind, yields [success = false] with the message of that
    very failure: the chat message in chat mode, the research message in
    research mode and, in auto mode, the research message unless it holds a
    fallback trigger, in which case the chat request follows and its
    failure, when it fails too, gives the chat message.  Without a client
    and an api key the attempt fails with the message of the missing
    key. *)
Theorem execute_failures_become_outcomes cfg up input s :
  truthy (Untyped.in_query input) = true ->
  converts (Untyped.in_max_steps input) = true ->
  (exists r s', Untyped.execute cfg up input s = (Ret r, s')) /\
  (_client s = None -> _api_key cfg = None ->
     exists r,
       Untyped.execute cfg up input s = (Ret r, s) /\ success r = false /\
       tr_error r =
         Some (if bool_decide (Untyped.in_mode input = Some "chat")
               then chat_message no_api_key
               else research_message cfg no_api_key)) /\
  (forall h s0, client cfg s = (Ret h, s0) ->
     let rq := input_research_request cfg (typed input) in
     let cq := input_chat_request (typed input) in
     (Untyped.in_mode input = Some "chat" ->
      forall e, chat_completions_create up (calls s0) cq = inl e ->
        exists r,
          Untyped.execute cfg up input s =
            (Ret r, log_calls [ChatCompletionsCreate h cq] s0) /\
          success r = false /\ tr_error r = Some (chat_message e)) /\
     (Untyped.in_mode input <> Some "chat" ->
      forall e, responses_create up (calls s0) rq = inl e ->
        (Untyped.in_mode input = Some "research" \/
         should_fallback (research_message cfg e) = false ->
         exists r,
           Untyped.execute cfg up input s =
             (Ret r, log_calls [ResponsesCreate h rq] s0) /\
           success r = false /\
           tr_error r = Some (research_message cfg e)) /\
        (Untyped.in_mode input <> Some "research" ->
         should_fallback (research_message cfg e) = true ->
         forall e',
           chat_completions_create up (calls s0 ++ [ResponsesCreate h rq]) cq
             = inl e' ->
           exists r,
             Untyped.execute cfg up input s =
               (Ret r, log_calls [ResponsesCreate h rq;
                                  ChatCompletionsCreate h cq] s0) /\
             success r = false /\ tr_error r = Some (chat_message e')))).
Proof.
  intros Hq Hv. rewrite (untyped_execute_typed cfg up input Hv).
  assert (Hq' : truthy (in_query (typed input)) = true) by exact Hq.
  rewrite (execute_modes cfg up (typed input) s Hq').
  change (in_mode (typed input)) with (Untyped.in_mode input).
  fold (input_chat_request (typed input)).
  split; [|split].
  - repeat case_bool_decide;
      [apply _execute_chat_returns | apply _execute_research_returns
      | apply auto_mode_returns].
  - intros Hnone Hkey.
    assert (Hcl : client cfg s = (Raise no_api_key, s))
      by (unfold client; by rewrite Hnone, Hkey).
    case_bool_decide as Hchat.
    + rewrite (_execute_chat_no_client _ _ _ _ _ _ _ _ _ Hcl).
      exists (chat_handler no_api_key). split; [done|].
      apply chat_handler_message.
    + exists (research_handler cfg no_api_key).
      split; [|apply research_handler_message].
      case_bool_decide.
      * by rewrite (_execute_research_no_client _ _ _ _ _ _ _ _ _ Hcl).
      * by rewrite (auto_mode_no_client _ _ _ _ _ _ _ _ Hcl).
  - intros h s0 Hcl rq cq. split.
    + intros Hchat e He.
      rewrite bool_decide_eq_true_2 by done.
      rewrite (_execute_chat_ready _ _ _ _ _ _ _ _ _ Hcl).
      fold (input_chat_request (typed input)). fold cq. rewrite He.
      exists (chat_handler e). split; [done | apply chat_handler_message].
    + intros Hchat e He.
      rewrite (bool_decide_eq_false_2 _ Hchat). split.
      * intros Hres. exists (research_handler cfg e).
        split; [|apply research_handler_message].
        case_bool_decide as Hmode.
        -- rewrite (_execute_research_ready _ _ _ _ _ _ _ _ _ Hcl).
           fold (input_research_request cfg (typed input)). fold rq.
           by rewrite He.
        -- destruct Hres as [Hres|Hres]; [done|].
           rewrite (auto_mode_ready _ _ _ _ _ _ _ _ _ _ Hcl).
           fold (input_research_request cfg (typed input)). fold rq.
           by rewrite He, Hres.
      * intros Hmode Hfb e' He'.
        rewrite (bool_decide_eq_false_2 _ Hmode).
        rewrite (auto_mode_ready _ _ _ _ _ _ _ _ _ _ Hcl).
        fold (input_research_request cfg (typed input))
             (input_chat_request (typed input)).
        fold rq cq. rewrite He, Hfb, He'.
        exists (chat_handler e'). split; [done | apply chat_handler_message].
Qed.

Lemma execute_failures_become_outcomes_witness :
  exists r,
    Untyped.execute sample_cfg (all_down too_many_requests)
      (untyped (Some (IntOk 3)) (query_input "q")) initial_state =
      (Ret r,
       log_calls
         [ ResponsesCreate 0
             (input_research_request sample_cfg
                (typed (untyped (Some (IntOk 3)) (query_input "q"))));
           ChatCompletionsCreate 0
             (input_chat_request
                (typed (untyped (Some (IntOk 3)) (query_input "q")))) ]
         connected_state) /\
    success r = false /\
    tr_error r = Some "Chat API error 429: Too Many Requests".
Proof.
  destruct (execute_failures_become_outcomes sample_cfg
              (all_down too_many_requests)
              (untyped (Some (IntOk 3)) (query_input "q")) initial_state
              eq_refl eq_refl) as (_ & _ & Hready).
  destruct (Hready 0%nat connected_state eq_refl) as (_ & Hauto).
  destruct (Hauto ltac:(discriminate) too_many_requests eq_refl) as (_ & Hfb).
  exact (Hfb ltac:(discriminate) eq_refl too_many_requests eq_refl).
Defined.

(** When every request meets a 429 status error, the research request
    fails, the fallback chat request fails too, and the caller gets the
    chat failure. *)
Example execute_all_down_outcome :
  (execute sample_cfg (all_down too_many_requests) (query_input "q")
     initial_state).1 =
  Ret (failure "Chat API error 429: Too Many Requests"
         "Chat API error 429: Too Many Requests").
Proof. vm_compute. reflexivity. Qed.

(** ** C3: closing the client *)

(** C3, as stated, fails: after [close], even twice, the tool does not fail
    fast.  The next [execute] builds a second client (handle 1) and its
    request succeeds. *)
Lemma reuse_after_close_succeeds :
  match reuse_after_close initial_state with
  | (Ret r, s') =>
      success r = true /\
      closed s' = [0%nat] /\
      _client s' = Some 1%nat /\
      calls s' =
        [ ResponsesCreate 0
            (research_request "first" "medium" 5
               "Provide thorough, well-researched answers with citations.");
          ClientClose 0;
          ResponsesCreate 1
            (research_request "second" "medium" 5
               "Provide thorough, well-researched answers with citations.") ]
  | (Raise _, _) => False
  end.
Proof. vm_compute. repeat split; reflexivity. Qed.

(** C3, amended.  [close] never raises, and a second [close] in a row does
    nothing.  After [close] the tool holds no client: the handle it held is
    closed and is not used again.  The tool itself stays usable: with an
    api key configured the next request builds a fresh client, different
    from every handle closed so far, and is sent on it; only without an api
    key does the next request fail. *)
Theorem close_idempotent_and_client_recreated cfg up s :
  handles_ok s ->
  (close s).1 = Ret tt /\
  (close (close s).2).1 = Ret tt /\
  (close (close s).2).2 = (close s).2 /\
  _client (close s).2 = None /\
  (forall h, _client s = Some h ->
     closed (close s).2 = closed s ++ [h] /\
     calls (close s).2 = calls s ++ [ClientClose h]) /\
  (forall k, _api_key cfg = Some k ->
     exists s1,
       client cfg (close s).2 = (Ret (constructed s), s1) /\
       _client s1 = Some (constructed s) /\
       (constructed s ∉ closed s1) /\
       forall q eff steps instr,
         calls (_execute_research cfg up q eff steps instr (close s).2).2 =
         calls (close s).2 ++
           [ResponsesCreate (constructed s) (research_request q eff steps instr)]) /\
  (_api_key cfg = None ->
     client cfg (close s).2 = (Raise no_api_key, (close s).2)).
Proof.
  intros [Hcl Hclosed].
  assert (Hnew : forall k s0, _api_key cfg = Some k -> _client s0 = None ->
    constructed s0 = constructed s ->
    (forall h, h ∈ closed s0 -> (h < constructed s)%nat) ->
    exists s1,
      client cfg s0 = (Ret (constructed s), s1) /\
      _client s1 = Some (constructed s) /\
      (constructed s ∉ closed s1) /\
      forall q eff steps instr,
        calls (_execute_research cfg up q eff steps instr s0).2 =
        calls s0 ++
          [ResponsesCreate (constructed s) (research_request q eff steps instr)]).
  { intros k s0 Hk Hc0 Hn Hcl0.
    assert (Hclient : client cfg s0 =
      (Ret (constructed s),
       {| _client := Some (constructed s); constructed := S (constructed s);
          closed := closed s0; calls := calls s0 |})).
    { unfold client. by rewrite Hc0, Hk, Hn. }
    eexists. split; [exact Hclient|]. simpl. split; [done|]. split.
    - intros Hin. apply Hcl0 in Hin. lia.
    - intros q eff steps instr.
      by rewrite (_execute_research_ready _ _ _ _ _ _ _ _ _ Hclient). }
  unfold close. destruct (_client s) as [h|] eqn:Hc; simpl.
  - do 4 (split; [done|]). split; [|split].
    + intros h' [= <-]. done.
    + intros k Hk. apply (Hnew k); [done..|]. simpl.
      intros h'. rewrite elem_of_app, list_elem_of_singleton.
      intros [Hin| ->]; [by apply Hclosed | by apply Hcl].
    + intros Hk. unfold client; simpl. by rewrite Hk.
  - rewrite Hc. simpl. do 4 (split; [done|]). split; [|split].
    + intros h' [=].
    + intros k Hk. by apply (Hnew k).
    + intros Hk. unfold client. by rewrite Hc, Hk.
Qed.

Lemma close_idempotent_and_client_recreated_witness :
  (close (close connected_state).2).2 = (close connected_state).2 /\
  _client (close connected_state).2 = None.
Proof.
  assert (Hok : handles_ok connected_state).
  { split.
    - intros h [= <-]. apply Nat.lt_0_1.
    - intros h Hin. by apply elem_of_nil in Hin. }
  destruct (close_idempotent_and_client_recreated sample_cfg healthy
              connected_state Hok) as (_ & _ & H3 & H4 & _).
  exact (conj H3 H4).
Defined.

(** * Further properties of the code *)

(** ** The normaliser: text and citations *)

Lemma add_citation_text_parts u t st :
  text_parts (add_citation u t st) = text_parts st.
Proof.
  unfold add_citation. destruct u as [u|]; [|done].
  by destruct (PyStr.truthy u && bool_decide (u ∉ seen_urls st)).
Qed.

Lemma fold_keeps_text_parts {A} (f : ParseState -> A -> ParseState) :
  (forall st x, text_parts (f st x) = text_parts st) ->
  forall l st, text_parts (fold_left f l st) = text_parts st.
Proof.
  intros Hf l. induction l as [|x l IH]; intros st; simpl; [done|].
  by rewrite IH, Hf.
Qed.

Lemma parse_content_item_text_parts st c :
  text_parts (parse_content_item st c) = text_parts st ++ content_item_texts c.
Proof.
  unfold parse_content_item, content_item_texts.
  destruct (is_text_type (ci_type c)); [|by rewrite app_nil_r].
  rewrite fold_keeps_text_parts
    by (intros; unfold parse_annotation; apply add_citation_text_parts).
  unfold append_text. destruct (getattr (ci_text c) _) as [t|];
    [destruct (PyStr.truthy t)|]; simpl; by rewrite ?app_nil_r.
Qed.

Lemma fold_content_items_text_parts l st :
  text_parts (fold_left parse_content_item l st) =
  text_parts st ++ flat_map content_item_texts l.
Proof.
  revert st. induction l as [|c l IH]; intros st; simpl.
  - by rewrite app_nil_r.
  - by rewrite IH, parse_content_item_text_parts, <- app_assoc.
Qed.

Lemma parse_output_item_text_parts st o :
  text_parts (parse_output_item st o) = text_parts st ++ output_item_texts o.
Proof.
  unfold parse_output_item, output_item_texts.
  case_bool_decide; [apply fold_content_items_text_parts|].
  rewrite app_nil_r. repeat case_bool_decide; try done;
    apply fold_keeps_text_parts; intros;
    [unfold parse_search_result | unfold parse_fetch_result];
    apply add_citation_text_parts.
Qed.

Lemma fold_output_items_text_parts l st :
  text_parts (fold_left parse_output_item l st) =
  text_parts st ++ flat_map output_item_texts l.
Proof.
  revert st. induction l as [|o l IH]; intros st; simpl.
  - by rewrite app_nil_r.
  - by rewrite IH, parse_output_item_text_parts, <- app_assoc.
Qed.

(** X1.  The content of a normalised response is the non-empty texts of the
    text-typed blocks of its message items, in item order then block order,
    joined by line feeds.  Search results, fetched urls, items of unknown
    kind and the citations collected on the way leave it untouched; a
    response without output has empty content and no citation. *)
Theorem parse_response_content (r : ResponseCreateResponse) :
  content (_parse_response r) = PyStr.join PyStr.nl (texts r) /\
  (forall o, o ∈ resp_output r -> oi_type o <> Some "message" ->
     output_item_texts o = []) /\
  (resp_output r = [] ->
     content (_parse_response r) = PyStr.empty /\
     citations (_parse_response r) = []).
Proof.
  split; [|split].
  - unfold _parse_response, texts; simpl.
    by rewrite fold_output_items_text_parts.
  - intros o _ Hne. unfold output_item_texts.
    by rewrite bool_decide_eq_false_2.
  - intros Hnil. unfold _parse_response. rewrite Hnil. done.
Qed.

Lemma parse_response_content_witness :
  content (_parse_response research_usage_example) = PyStr.empty /\
  citations (_parse_response research_usage_example) = [].
Proof.
  apply (proj2 (proj2 (parse_response_content research_usage_example))).
  reflexivity.
Defined.

Lemma candidate_well_formed u t c :
  c ∈ candidate u t ->
  url c <> PyStr.empty /\ category c = _categorize_url (url c) /\
  title c <> PyStr.empty /\ (title c = "Untitled" \/ title c <> url c).
Proof.
  unfold candidate. destruct u as [u|]; [|by intros ?%elem_of_nil].
  destruct (PyStr.truthy u) eqn:Hu; [|by intros ?%elem_of_nil].
  intros ->%list_elem_of_singleton. simpl.
  split; [by destruct u|]. split; [done|].
  unfold display_title. destruct t as [t|]; [|by split; [|left]].
  destruct (PyStr.truthy t) eqn:Ht; simpl; [|by split; [|left]].
  case_bool_decide as Heq; simpl; [by split; [|left]|].
  split; [by destruct t | by right].
Qed.

Lemma elem_of_flat_map {A B} (f : A -> list B) (l : list A) (y : B) :
  y ∈ flat_map f l <-> exists x, x ∈ l /\ y ∈ f x.
Proof.
  rewrite list_elem_of_In, in_flat_map. split.
  - intros (x & Hx & Hy). exists x. by rewrite !list_elem_of_In.
  - intros (x & Hx & Hy). exists x. by rewrite <- !list_elem_of_In.
Qed.

Lemma candidates_well_formed r c :
  c ∈ candidates r ->
  url c <> PyStr.empty /\ category c = _categorize_url (url c) /\
  title c <> PyStr.empty /\ (title c = "Untitled" \/ title c <> url c).
Proof.
  unfold candidates. rewrite elem_of_flat_map. intros (o & _ & Ho).
  unfold output_item_candidates in Ho.
  repeat case_bool_decide; try (by apply elem_of_nil in Ho);
    apply elem_of_flat_map in Ho as (x & _ & Hx).
  - unfold content_item_candidates in Hx.
    destruct (is_text_type (ci_type x)); [|by apply elem_of_nil in Hx].
    apply elem_of_flat_map in Hx as (a & _ & Ha).
    by apply candidate_well_formed in Ha.
  - by apply candidate_well_formed in Hx.
  - by apply candidate_well_formed in Hx.
Qed.

Lemma parse_response_citations_candidates r c :
  c ∈ citations (_parse_response r) -> c ∈ candidates r.
Proof.
  rewrite parse_response_push, push_fold_first_occurrences. simpl.
  intros [_ Hin]%list_elem_of_filter.
  apply (elem_of_sublist _ _ _ Hin), first_occurrences_sublist.
Qed.

(** X2.  Every citation of a normalised deep-research response has a
    non-empty url, the category the classifier gives that url, and a
    non-empty title, which is "Untitled" or differs from the url. *)
Theorem parse_response_citations_well_formed r c :
  c ∈ citations (_parse_response r) ->
  url c <> PyStr.empty /\ category c = _categorize_url (url c) /\
  title c <> PyStr.empty /\ (title c = "Untitled" \/ title c <> url c).
Proof.
  intros Hc. by apply (candidates_well_formed r), parse_response_citations_candidates.
Qed.

Lemma parse_response_citations_well_formed_witness :
  url {| url := "https://example.com/same"; title := "Same URL";
         category := other |} <> PyStr.empty /\
  other = _categorize_url "https://example.com/same" /\
  "Same URL" <> PyStr.empty /\
  ("Same URL" = "Untitled" \/ "Same URL" <> "https://example.com/same").
Proof.
  apply (parse_response_citations_well_formed
           (two_annotation_response "https://example.com/same" "Same URL"
              "Same URL Again")).
  vm_compute. apply list_elem_of_here.
Defined.

(** ** Normaliser and formatter together *)

Lemma group_lines_entry cs n c :
  cs !! n = Some c ->
  forall line, line ∈ entry_lines (S n, c) ->
    line ∈ group_lines cs (category c).
Proof.
  intros Hn line Hline. unfold group_lines.
  assert (Hmem : (S n, c) ∈
    filter (fun ic : nat * Citation => category ic.2 = category c) (numbered cs)).
  { apply list_elem_of_filter. split; [done|].
    apply numbered_position. simpl. split; [lia|].
    by rewrite Nat.sub_0_r. }
  destruct (filter _ _) as [|ic l]; [by apply elem_of_nil in Hmem|].
  apply elem_of_cons. right. apply elem_of_flat_map. by exists (S n, c).
Qed.

Lemma references_lines_entry cs n c :
  cs !! n = Some c ->
  forall line, line ∈ entry_lines (S n, c) -> line ∈ references_lines cs.
Proof.
  intros Hn line Hline. pose proof (group_lines_entry cs n c Hn line Hline) as Hg.
  unfold references_lines. rewrite elem_of_cons, !elem_of_app.
  destruct (category c); tauto.
Qed.

(** X3.  Nothing the normaliser collects is lost in the rendering: the
    citation at position n (from 0) of a normalised deep-research response
    appears in the formatted output as the line "- [n+1] title" and the
    line "  URL: url". *)
Theorem parse_then_format_renders_every_citation r n c :
  citations (_parse_response r) !! n = Some c ->
  ("- [" +:+ PyStr.of_nat (S n) +:+ "] " +:+ title c)
    ∈ format_parts (_parse_response r) /\
  ("  URL: " +:+ url c) ∈ format_parts (_parse_response r).
Proof.
  intros Hn.
  assert (Hin : c ∈ citations (_parse_response r))
    by (apply list_elem_of_lookup; by exists n).
  destruct (candidates_well_formed r c
              (parse_response_citations_candidates r c Hin)) as (Hurl & _).
  rewrite format_parts_references
    by (intros Hnil; rewrite Hnil in Hin; by apply elem_of_nil in Hin).
  assert (Hlines : entry_lines (S n, c) =
    [ "- [" +:+ PyStr.of_nat (S n) +:+ "] " +:+ title c; "  URL: " +:+ url c ]).
  { unfold entry_lines. simpl. by rewrite bool_decide_eq_false_2. }
  split; apply elem_of_cons; right; apply elem_of_app; left;
    apply (references_lines_entry _ n c Hn); rewrite Hlines.
  - apply list_elem_of_here.
  - apply list_elem_of_further, list_elem_of_here.
Qed.

Lemma parse_then_format_renders_every_citation_witness :
  "- [1] Same URL"
    ∈ format_parts (_parse_response
        (two_annotation_response "https://example.com/same" "Same URL"
           "Same URL Again")) /\
  "  URL: https://example.com/same"
    ∈ format_parts (_parse_response
        (two_annotation_response "https://example.com/same" "Same URL"
           "Same URL Again")).
Proof.
  apply (parse_then_format_renders_every_citation
           (two_annotation_response "https://example.com/same" "Same URL"
              "Same URL Again") 0
           {| url := "https://example.com/same"; title := "Same URL";
              category := other |}).
  reflexivity.
Defined.

(** ** The formatter: shape of the output *)

Lemma format_parts_shape r :
  format_parts r =
  content r ::
    (match citations r with
     | [] => []
     | _ :: _ => references_lines (citations r)
     end) ++ usage_lines (usage r).
Proof.
  destruct (citations r) as [|c cs] eqn:Hcs.
  - unfold format_parts, usage_lines. rewrite Hcs.
    by case_bool_decide.
  - rewrite <- Hcs. apply format_parts_references. by rewrite Hcs.
Qed.

Lemma append_empty_r s : s +:+ EmptyString = s.
Proof.
  induction s as [|a s IH]; [done|].
  change (String a (s +:+ EmptyString) = String a s). by rewrite IH.
Qed.

Lemma join_cons sep x l :
  exists rest, PyStr.join sep (x :: l) = x +:+ rest.
Proof.
  unfold PyStr.join. destruct l as [|y l]; simpl.
  - exists EmptyString. by rewrite append_empty_r.
  - by eexists.
Qed.

(** X4.  The formatted output always begins with the content.  With no
    citation and no usage it is the content and nothing else; with usage
    only, the content, a line feed and the token line. *)
Theorem format_output_begins_with_content (r : Result) :
  PyStr.startswith (content r) (_format_structured_output r) = true /\
  (citations r = [] -> usage r = ∅ ->
     _format_structured_output r = content r) /\
  (citations r = [] -> usage r <> ∅ ->
     _format_structured_output r =
     content r +:+ PyStr.nl +:+ tokens_line (usage r)).
Proof.
  unfold _format_structured_output. rewrite format_parts_shape.
  split; [|split].
  - apply startswith_spec. apply join_cons.
  - intros -> ->. unfold usage_lines. by rewrite bool_decide_eq_true_2.
  - intros -> Hu. unfold usage_lines. by rewrite bool_decide_eq_false_2.
Qed.

Lemma format_output_begins_with_content_witness :
  _format_structured_output (result_with []) = "X".
Proof.
  apply (proj1 (proj2 (format_output_begins_with_content (result_with []))));
    reflexivity.
Defined.

Lemma usage_dict_nonempty i o t : usage_dict i o t <> ∅.
Proof.
  intros Heq. destruct (usage_dict_lookup i o t) as (Hi & _).
  by rewrite Heq, lookup_empty in Hi.
Qed.

Lemma tokens_line_usage_dict i o t :
  tokens_line (usage_dict i o t) =
  PyStr.nl +:+ PyStr.nl +:+ "---" +:+ PyStr.nl +:+ "Tokens: " +:+ PyStr.of_Z t.
Proof.
  unfold tokens_line. destruct (usage_dict_lookup i o t) as (_ & _ & ->). done.
Qed.

Lemma chat_result_usage model resp :
  usage (chat_result model resp) =
  match chat_usage resp with
  | Some u =>
      usage_dict (or_zero (prompt_tokens u)) (or_zero (completion_tokens u))
        (or_zero (total_tokens u))
  | None => ∅
  end.
Proof.
  unfold chat_result.
  by destruct (match choices resp with Some (c :: _) => _ | _ => _ end).
Qed.

(** X5.  The token line of a rendered answer is decided by the response's
    usage record.  For a deep-research response with usage the output ends
    with "Tokens: " and the sum of the input and output counts (absent
    counts as 0); for a chat response with usage, with the reported total
    (0 when absent).  Without a usage record there is no token line.  The
    marker "N/A" is therefore never printed for either kind of response. *)
Theorem rendered_token_line :
  (forall r u, resp_usage r = Some u ->
     last (format_parts (_parse_response r)) =
     Some (PyStr.nl +:+ PyStr.nl +:+ "---" +:+ PyStr.nl +:+ "Tokens: " +:+
           PyStr.of_Z (default 0 (input_tokens u) + default 0 (output_tokens u)))) /\
  (forall r, resp_usage r = None ->
     usage_lines (usage (_parse_response r)) = []) /\
  (forall model resp u, chat_usage resp = Some u ->
     last (format_parts (chat_result model resp)) =
     Some (PyStr.nl +:+ PyStr.nl +:+ "---" +:+ PyStr.nl +:+ "Tokens: " +:+
           PyStr.of_Z (default 0 (total_tokens u)))) /\
  (forall model resp, chat_usage resp = None ->
     usage_lines (usage (chat_result model resp)) = []).
Proof.
  split; [|split; [|split]].
  - intros r u Hu. rewrite format_parts_shape.
    assert (Husage : usage (_parse_response r) =
      usage_dict (or_zero (input_tokens u)) (or_zero (output_tokens u))
        (or_zero (input_tokens u) + or_zero (output_tokens u)))
      by (unfold _parse_response; simpl; by rewrite Hu).
    rewrite Husage. unfold usage_lines.
    rewrite bool_decide_eq_false_2 by apply usage_dict_nonempty.
    rewrite tokens_line_usage_dict, app_comm_cons, last_snoc.
    by destruct (input_tokens u), (output_tokens u).
  - intros r Hu. unfold _parse_response; simpl. by rewrite Hu.
  - intros m resp u Hu. rewrite format_parts_shape, chat_result_usage, Hu.
    unfold usage_lines.
    rewrite bool_decide_eq_false_2 by apply usage_dict_nonempty.
    rewrite tokens_line_usage_dict, app_comm_cons, last_snoc.
    by destruct (total_tokens u).
  - intros m resp Hu. by rewrite chat_result_usage, Hu.
Qed.

Lemma rendered_token_line_witness :
  last (format_parts (_parse_response research_usage_example)) =
  Some (PyStr.nl +:+ PyStr.nl +:+ "---" +:+ PyStr.nl +:+ "Tokens: 300").
Proof.
  apply (proj1 rendered_token_line research_usage_example usage_100_200 eq_refl).
Defined.

(** ** Chat responses: citations *)

Lemma chat_fold_first_urls urls acc :
  fold_left chat_add_citation urls acc =
  acc ++ (chat_citation <$> filter (fun u => u ∉ url <$> acc) (first_urls urls)).
Proof.
  revert acc. induction urls as [|u us IH]; intros acc; simpl.
  - by rewrite app_nil_r.
  - rewrite IH. unfold chat_add_citation. rewrite filter_cons.
    case_bool_decide as Hin.
    + rewrite decide_False by tauto. do 2 f_equal.
      rewrite list_filter_filter. apply list_filter_iff.
      intros v. split; [|tauto]. intros Hv. split; [done|]. by intros ->.
    + rewrite decide_True by done. rewrite <- app_assoc. simpl. do 3 f_equal.
      rewrite list_filter_filter. apply list_filter_iff.
      intros v. rewrite fmap_app, elem_of_app. simpl.
      rewrite list_elem_of_singleton. tauto.
Qed.

Lemma first_urls_NoDup us : NoDup (first_urls us).
Proof.
  induction us as [|u us IH]; simpl; [constructor|].
  apply NoDup_cons. split.
  - intros [Hne _]%list_elem_of_filter. by apply Hne.
  - by apply NoDup_filter.
Qed.

Lemma first_urls_elem us v : v ∈ first_urls us <-> v ∈ us.
Proof.
  induction us as [|u us IH]; simpl; [done|].
  rewrite !elem_of_cons, list_elem_of_filter, IH.
  destruct (decide (v = u)); tauto.
Qed.

Lemma chat_result_citations model resp :
  citations (chat_result model resp) = chat_citation <$> first_urls (chat_urls resp).
Proof.
  unfold chat_result, chat_urls.
  destruct (choices resp) as [[|c cs]|]; simpl; try done.
  destruct (msg_citations (message c)) as [urls|]; simpl; [|done].
  rewrite chat_fold_first_urls. simpl. f_equal.
  induction (first_urls urls) as [|u l IH]; [done|].
  rewrite filter_cons_True by apply not_elem_of_nil. by rewrite IH.
Qed.

(** X6.  A chat answer cites exactly the urls listed by the message of the
    first choice: one citation per distinct url, in order of first
    occurrence, each titled "Citation" and classified from its url.  No
    url is dropped for being empty, so, unlike a deep-research answer, a
    chat answer can hold a citation with the empty url. *)
Theorem chat_result_citations_spec model resp :
  citations (chat_result model resp) =
    chat_citation <$> first_urls (chat_urls resp) /\
  url <$> citations (chat_result model resp) = first_urls (chat_urls resp) /\
  NoDup (url <$> citations (chat_result model resp)) /\
  (forall u, u ∈ url <$> citations (chat_result model resp) <->
     u ∈ chat_urls resp) /\
  (forall c, c ∈ citations (chat_result model resp) ->
     title c = "Citation" /\ category c = _categorize_url (url c)).
Proof.
  rewrite chat_result_citations.
  assert (Hurls : url <$> (chat_citation <$> first_urls (chat_urls resp)) =
                  first_urls (chat_urls resp)).
  { rewrite <- list_fmap_compose. apply list_fmap_id. }
  split; [done|]. split; [done|]. rewrite Hurls.
  split; [apply first_urls_NoDup|]. split; [apply first_urls_elem|].
  intros c (u & -> & _)%list_elem_of_fmap. done.
Qed.

(** ** The client handle *)

(** One access of the [client] property. *)
Lemma client_step cfg s h s1 :
  client cfg s = (Ret h, s1) ->
  client cfg s1 = (Ret h, s1) /\
  _client s1 = Some h /\
  (_client s = Some h /\ s1 = s \/
   _client s = None /\ h = constructed s /\
     constructed s1 = S (constructed s)) /\
  calls s1 = calls s /\ closed s1 = closed s.
Proof.
  unfold client. destruct (_client s) as [h'|] eqn:Hc.
  - intros [= <- <-]. rewrite Hc. repeat split; try done. by left.
  - destruct (_api_key cfg); [|done].
    intros [= <- <-]. simpl. repeat split; try done. by right.
Qed.

(** X7.  The client is created lazily and reused.  An access that yields a
    handle either finds the one already there and changes nothing, or, with
    none there, constructs exactly one; the next access returns the same
    handle and changes nothing.  No access touches the call log or the
    closed handles. *)
Theorem client_created_once_then_reused cfg s h s1 :
  client cfg s = (Ret h, s1) ->
  client cfg s1 = (Ret h, s1) /\
  _client s1 = Some h /\
  (_client s = Some h /\ s1 = s \/
   _client s = None /\ h = constructed s /\
     constructed s1 = S (constructed s)) /\
  calls s1 = calls s /\ closed s1 = closed s.
Proof. apply client_step. Qed.

Lemma client_created_once_then_reused_witness :
  client sample_cfg connected_state = (Ret 0%nat, connected_state) /\
  _client connected_state = Some 0%nat.
Proof.
  destruct (client_created_once_then_reused sample_cfg connected_state 0%nat
              connected_state eq_refl) as (H1 & H2 & _).
  exact (conj H1 H2).
Defined.

(** ** Explicit modes *)




(** In mode "research" the rate-limited request of the sample service is
    reported as such, with one request sent. *)
Example research_mode_rate_limited :
  execute sample_cfg (all_down (RateLimitError 429 "slow down"))
    (with_mode (Some "research") (query_input "q")) initial_state =
  (Ret (failure "Rate limited: slow down" "Rate limited: slow down"),
   log_call
     (ResponsesCreate 0
        (research_request "q" "medium" 5
           "Provide thorough, well-researched answers with citations."))
     connected_state).
Proof. vm_compute. reflexivity. Qed.

(** ** Sessions: the client is never used after it is closed *)

Lemma log_calls_fields new s :
  _client (log_calls new s) = _client s /\
  constructed (log_calls new s) = constructed s /\
  closed (log_calls new s) = closed s /\
  calls (log_calls new s) = calls s ++ new.
Proof.
  unfold log_calls. revert s. induction new as [|c new IH]; intros s; simpl.
  - by rewrite app_nil_r.
  - destruct (IH (log_call c s)) as (H1 & H2 & H3 & H4).
    rewrite H1, H2, H3, H4. simpl. by rewrite <- app_assoc.
Qed.

(** With a client at hand and a non-empty query, [execute] sends one or two
    requests on that client, each the research or the chat request made
    from the resolved parameters. *)
Lemma execute_ready_cases cfg up input s h s0 :
  truthy (in_query input) = true ->
  client cfg s = (Ret h, s0) ->
  exists new,
    (execute cfg up input s).2 = log_calls new s0 /\
    (1 <= length new <= 2)%nat /\
    Forall (fun c =>
      c = ResponsesCreate h
            (research_request (resolved_query input) (resolved_effort cfg input)
               (resolved_max_steps cfg input) (resolved_instructions input)) \/
      c = ChatCompletionsCreate h
            (chat_request (resolved_query input) (resolved_model input)
               (resolved_instructions input))) new.
Proof.
  intros Hq Hc. rewrite execute_modes by done.
  set (c1 := ResponsesCreate h
    (research_request (resolved_query input) (resolved_effort cfg input)
       (resolved_max_steps cfg input) (resolved_instructions input))).
  set (c2 := ChatCompletionsCreate h
    (chat_request (resolved_query input) (resolved_model input)
       (resolved_instructions input))).
  assert (H1 : Forall (fun c => c = c1 \/ c = c2) [c1])
    by (apply Forall_cons; split; [by left | constructor]).
  assert (H2 : Forall (fun c => c = c1 \/ c = c2) [c2])
    by (apply Forall_cons; split; [by right | constructor]).
  assert (H12 : Forall (fun c => c = c1 \/ c = c2) [c1; c2])
    by (apply Forall_cons; split; [by left | done]).
  destruct (bool_decide (in_mode input = Some "chat")).
  { rewrite (_execute_chat_ready _ _ _ _ _ _ _ _ _ Hc).
    exists [c2]. split; [done|]. split; [simpl; lia | done]. }
  pose proof (_execute_research_ready cfg up (resolved_query input)
                (resolved_effort cfg input) (resolved_max_steps cfg input)
                (resolved_instructions input) s h s0 Hc) as Hr.
  destruct (bool_decide (in_mode input = Some "research")).
  { rewrite Hr. exists [c1]. split; [done|]. split; [simpl; lia | done]. }
  rewrite (auto_mode_run _ _ _ _ _ _ _ _ _ _ Hr).
  destruct (tr_error _) as [m|];
    [destruct (negb _ && should_fallback m)|].
  - rewrite (_execute_chat_ready cfg up _ _ _ _ _ h _
               (client_again cfg s h s0 Hc c1)).
    exists [c1; c2]. split; [done|]. split; [simpl; lia | done].
  - exists [c1]. split; [done|]. split; [simpl; lia | done].
  - exists [c1]. split; [done|]. split; [simpl; lia | done].
Qed.

(** Without a query, or without any way to get a client, [execute] leaves
    the state alone. *)
Lemma execute_idle_cases cfg up input s :
  truthy (in_query input) = false \/ client cfg s = (Raise no_api_key, s) ->
  (execute cfg up input s).2 = s.
Proof.
  destruct (truthy (in_query input)) eqn:Hq;
    [|intros _; unfold execute; by rewrite Hq].
  intros [?|Hc]; [done|]. rewrite execute_modes by done.
  destruct (bool_decide (in_mode input = Some "chat")).
  { by rewrite (_execute_chat_no_client _ _ _ _ _ _ _ _ _ Hc). }
  pose proof (_execute_research_no_client cfg up (resolved_query input)
                (resolved_effort cfg input) (resolved_max_steps cfg input)
                (resolved_instructions input) s _ _ Hc) as Hr.
  destruct (bool_decide (in_mode input = Some "research")); [by rewrite Hr|].
  by rewrite (auto_mode_run _ _ _ _ _ _ _ _ _ _ Hr).
Qed.

Lemma execute_state_cases cfg up input s :
  (execute cfg up input s).2 = s \/
  exists h s0 new,
    client cfg s = (Ret h, s0) /\
    (execute cfg up input s).2 = log_calls new s0 /\
    (1 <= length new <= 2)%nat /\
    Forall (fun c =>
      c = ResponsesCreate h
            (research_request (resolved_query input) (resolved_effort cfg input)
               (resolved_max_steps cfg input) (resolved_instructions input)) \/
      c = ChatCompletionsCreate h
            (chat_request (resolved_query input) (resolved_model input)
               (resolved_instructions input))) new.
Proof.
  destruct (truthy (in_query input)) eqn:Hq;
    [|left; apply execute_idle_cases; by left].
  destruct (client_cases cfg s) as [(h & s0 & Hc & _)|[Hc _]].
  - right. exists h, s0.
    destruct (execute_ready_cases cfg up input s h s0 Hq Hc) as (new & Hnew).
    by exists new.
  - left. apply execute_idle_cases. by right.
Qed.

Lemma no_use_after_close_snoc l c :
  no_use_after_close l ->
  (forall h, ClientClose h ∈ l -> call_handle c <> h) ->
  no_use_after_close (l ++ [c]).
Proof.
  intros Hl Hc l1 l2 h c' Heq Hin.
  destruct l2 as [|x l2 _] using rev_ind; [by apply elem_of_nil in Hin|].
  rewrite app_comm_cons, app_assoc in Heq.
  apply app_inj_tail in Heq as [Heq <-].
  apply elem_of_app in Hin as [Hin | ->%list_elem_of_singleton].
  - by apply (Hl l1 l2 h c').
  - apply Hc. rewrite Heq, elem_of_app, elem_of_cons. tauto.
Qed.

Lemma session_inv_client cfg s h s0 :
  session_inv s -> client cfg s = (Ret h, s0) ->
  session_inv s0 /\ _client s0 = Some h /\ closed s0 = closed s /\
  calls s0 = calls s /\ (constructed s0 <= S (constructed s))%nat /\
  (forall h', _client s = Some h' -> h' = h).
Proof.
  intros ([Hcl Hclosed] & Hlive & Hnd & Hcalls & Hcc & Hnuac) Hc.
  destruct (client_step cfg s h s0 Hc)
    as (_ & Hc0 & Hcase & Hcalls0 & Hclosed0).
  destruct Hcase as [[Hs ->]|(Hnone & -> & Hn)].
  - repeat split; try done; try lia. intros h' Hh'. congruence.
  - split; [|repeat split; try done; try lia; congruence].
    unfold session_inv, handles_ok. rewrite Hclosed0, Hcalls0, Hn, Hc0.
    split; [split|split; [|split; [|split; [|split]]]]; try done.
    + intros h' [= <-]. lia.
    + intros h' Hh'. apply Hclosed in Hh'. lia.
    + intros h' [= <-] Hin. apply Hclosed in Hin. lia.
    + intros c Hin. apply Hcalls in Hin. lia.
Qed.

Lemma session_inv_log_call s c :
  session_inv s -> is_request c = true -> _client s = Some (call_handle c) ->
  session_inv (log_call c s).
Proof.
  intros ([Hcl Hclosed] & Hlive & Hnd & Hcalls & Hcc & Hnuac) Hreq Hh.
  unfold session_inv, handles_ok, log_call; simpl.
  repeat split; try done.
  - intros c' [Hin | ->%list_elem_of_singleton]%elem_of_app;
      [by apply Hcalls | by apply Hcl].
  - intros h [Hin | Heq%list_elem_of_singleton]%elem_of_app;
      [by apply Hcc | by subst c].
  - apply no_use_after_close_snoc; [done|].
    intros h Hin <-. by apply (Hlive _ Hh), Hcc.
Qed.

Lemma session_inv_log_calls new s h :
  session_inv s -> _client s = Some h ->
  Forall (fun c => is_request c = true /\ call_handle c = h) new ->
  session_inv (log_calls new s).
Proof.
  unfold log_calls. revert s.
  induction new as [|c new IH]; intros s Hinv Hh Hall; simpl; [done|].
  apply Forall_cons in Hall as [[Hreq Hc] Hall].
  apply IH; [|done|done].
  apply session_inv_log_call; [done|done|by rewrite Hc].
Qed.

(** What one [execute] does to a state in order. *)
Lemma execute_session_step cfg up input s :
  session_inv s ->
  session_inv (execute cfg up input s).2 /\
  closed (execute cfg up input s).2 = closed s /\
  (constructed (execute cfg up input s).2 <= S (constructed s))%nat /\
  (forall h, _client s = Some h ->
     _client (execute cfg up input s).2 = Some h /\
     constructed (execute cfg up input s).2 = constructed s) /\
  exists new,
    calls (execute cfg up input s).2 = calls s ++ new /\
    (length new <= 2)%nat /\
    forall c, c ∈ new ->
      is_request c = true /\
      _client (execute cfg up input s).2 = Some (call_handle c) /\
      call_handle c ∉ closed (execute cfg up input s).2.
Proof.
  intros Hinv.
  destruct (execute_state_cases cfg up input s)
    as [-> | (h & s0 & new & Hc & -> & Hlen & Hall)].
  - split; [done|]. split; [done|]. split; [lia|]. split; [done|].
    exists []. rewrite app_nil_r. split; [done|]. split; [simpl; lia|].
    intros c Hin. by apply elem_of_nil in Hin.
  - apply (Forall_impl _
      (fun c => is_request c = true /\ call_handle c = h)) in Hall;
      [|by intros c [-> | ->]].
    destruct (session_inv_client cfg s h s0 Hinv Hc)
      as (Hinv0 & Hc0 & Hclosed0 & Hcalls0 & Hn0 & Hsame).
    destruct (log_calls_fields new s0) as (F1 & F2 & F3 & F4).
    rewrite F1, F2, F3, F4, Hc0, Hclosed0, Hcalls0.
    split; [by apply (session_inv_log_calls new s0 h)|].
    split; [done|]. split; [done|]. split.
    + intros h' Hh'. rewrite (Hsame h' Hh'). split; [done|].
      destruct (client_step cfg s h s0 Hc)
        as (_ & _ & [[_ ->]|(Hnone & _)] & _); [done | congruence].
    + exists new. split; [done|]. split; [lia|].
      intros c Hin. rewrite Forall_forall in Hall.
      destruct (Hall c Hin) as [Hreq ->]. split; [done|]. split; [done|].
      destruct Hinv0 as (_ & Hlive0 & _). rewrite <- Hclosed0.
      by apply Hlive0.
Qed.

(** X9.  One [execute] keeps the tool's handles in order: it sends at most
    two requests, all on the client the tool holds afterwards, which is not
    closed; it constructs at most one client and only when the tool held
    none; it closes nothing and keeps a client it already had. *)
Theorem execute_uses_one_live_client cfg up input s :
  session_inv s ->
  session_inv (execute cfg up input s).2 /\
  closed (execute cfg up input s).2 = closed s /\
  (constructed (execute cfg up input s).2 <= S (constructed s))%nat /\
  (forall h, _client s = Some h ->
     _client (execute cfg up input s).2 = Some h /\
     constructed (execute cfg up input s).2 = constructed s) /\
  exists new,
    calls (execute cfg up input s).2 = calls s ++ new /\
    (length new <= 2)%nat /\
    forall c, c ∈ new ->
      is_request c = true /\
      _client (execute cfg up input s).2 = Some (call_handle c) /\
      call_handle c ∉ closed (execute cfg up input s).2.
Proof. apply execute_session_step. Qed.

Lemma session_inv_initial : session_inv initial_state.
Proof.
  unfold session_inv, handles_ok, no_use_after_close; simpl.
  repeat split; try done; try constructor.
  - intros h Hin. by apply elem_of_nil in Hin.
  - intros c Hin. by apply elem_of_nil in Hin.
  - intros h Hin. by apply elem_of_nil in Hin.
  - intros l1 l2 h c Heq. by destruct l1.
Qed.

Lemma execute_uses_one_live_client_witness :
  closed (execute sample_cfg healthy (query_input "q") initial_state).2 = [] /\
  (constructed (execute sample_cfg healthy (query_input "q") initial_state).2
     <= 1)%nat.
Proof.
  destruct (execute_uses_one_live_client sample_cfg healthy (query_input "q")
              initial_state session_inv_initial) as (_ & H2 & H3 & _).
  exact (conj H2 H3).
Defined.

Lemma session_inv_close s : session_inv s -> session_inv (close s).2.
Proof.
  intros Hinv. unfold close. destruct (_client s) as [h|] eqn:Hc; [|done].
  destruct Hinv as ([Hcl Hclosed] & Hlive & Hnd & Hcalls & Hcc & Hnuac).
  unfold session_inv, handles_ok; simpl.
  split; [split|split; [|split; [|split; [|split]]]]; try done.
  - intros h' [Hin | ->%list_elem_of_singleton]%elem_of_app;
      [by apply Hclosed | by apply Hcl].
  - apply NoDup_app. split; [done|]. split; [|apply NoDup_singleton].
    intros h' Hin ->%list_elem_of_singleton. by apply (Hlive h).
  - intros c [Hin | ->%list_elem_of_singleton]%elem_of_app;
      [by apply Hcalls | by apply Hcl].
  - intros h' [Hin | Heq%list_elem_of_singleton]%elem_of_app.
    + apply elem_of_app. left. by apply Hcc.
    + injection Heq as ->. apply elem_of_app. right. apply list_elem_of_here.
  - apply no_use_after_close_snoc; [done|]. simpl.
    intros h' Hin <-. by apply (Hlive h), Hcc.
Qed.

(** X10.  Whatever a user does with a tool, starting from a new one and
    calling [execute] and [close] in any order and number, against any
    service: no call is ever made on a handle that was closed before, no
    handle is closed twice, the client the tool holds is never a closed
    one, and every request on record went to a handle the tool
    constructed. *)
Theorem session_never_uses_closed_client cfg up (ops : list Op) :
  no_use_after_close (calls (run_ops cfg up ops initial_state)) /\
  NoDup (closed (run_ops cfg up ops initial_state)) /\
  (forall h, _client (run_ops cfg up ops initial_state) = Some h ->
     h ∉ closed (run_ops cfg up ops initial_state)) /\
  (forall c, c ∈ calls (run_ops cfg up ops initial_state) ->
     (call_handle c < constructed (run_ops cfg up ops initial_state))%nat).
Proof.
  assert (Hinv : forall s, session_inv s -> session_inv (run_ops cfg up ops s)).
  { unfold run_ops. induction ops as [|op ops IH]; intros s Hs; simpl; [done|].
    apply IH. destruct op as [input|]; simpl.
    - by apply execute_session_step.
    - by apply session_inv_close. }
  destruct (Hinv _ session_inv_initial) as (_ & Hlive & Hnd & Hcalls & _ & Hnuac).
  done.
Qed.

(** The session of the earlier example: two requests around two closes. *)
Example session_example :
  calls (run_ops sample_cfg healthy
           [ OpExecute (query_input "first"); OpClose; OpClose;
             OpExecute (query_input "second") ] initial_state) =
  [ ResponsesCreate 0
      (research_request "first" "medium" 5
         "Provide thorough, well-researched answers with citations.");
    ClientClose 0;
    ResponsesCreate 1
      (research_request "second" "medium" 5
         "Provide thorough, well-researched answers with citations.") ].
Proof. vm_compute. reflexivity. Qed.

(** ** Which failures fall back *)

Lemma should_fallback_rate_limited cfg c m :
  should_fallback (research_message cfg (RateLimitError c m)) = true.
Proof.
  apply should_fallback_spec. exists "rate limit".
  split; [apply list_elem_of_here|]. simpl.
  exists EmptyString, ("ed: " +:+ PyStr.lower m).
  by rewrite lower_app.
Qed.

Lemma should_fallback_status_429 cfg m :
  should_fallback (research_message cfg (APIStatusError 429 m)) = true.
Proof.
  apply should_fallback_spec. exists "429".
  split; [apply list_elem_of_further, list_elem_of_further, list_elem_of_here|].
  simpl. case_bool_decide.
  - by exists "api error ", EmptyString.
  - exists "api error ", (": " +:+ PyStr.lower m).
    change ("API error " +:+ PyStr.of_Z 429 +:+ ": " +:+ m)
      with ("API error 429: " +:+ m).
    by rewrite lower_app.
Qed.

(** X11.  In auto mode a rate-limit error and a status error with code 429
    always lead to the chat fallback, whatever message the service gave:
    the messages built for them contain "rate limit" and "429".  A tool
    without an api key, on the contrary, never falls back: it reports that
    the key is missing and sends nothing. *)
Theorem rate_limit_always_falls_back cfg up q model eff steps instr s :
  (forall h s0 e,
     client cfg s = (Ret h, s0) ->
     responses_create up (calls s0) (research_request q eff steps instr) = inl e ->
     (exists c m, e = RateLimitError c m) \/ (exists m, e = APIStatusError 429 m) ->
     auto_mode cfg up q model eff steps instr s =
       (Ret (chat_outcome model (fallback_note (research_message cfg e))
               (chat_completions_create up
                  (calls s0 ++ [ResponsesCreate h (research_request q eff steps instr)])
                  (chat_request q model instr))),
        log_calls [ ResponsesCreate h (research_request q eff steps instr);
                    ChatCompletionsCreate h (chat_request q model instr) ] s0)) /\
  (_client s = None -> _api_key cfg = None ->
     auto_mode cfg up q model eff steps instr s =
       (Ret (failure PyStr.empty
               "Research failed: api_key must be provided for API calls"), s)).
Proof.
  split.
  - intros h s0 e Hc He Hkind.
    pose proof (_execute_research_ready cfg up q eff steps instr s h s0 Hc) as Hr.
    rewrite He in Hr. simpl in Hr.
    rewrite (auto_mode_run _ _ _ _ _ _ _ _ _ _ Hr).
    destruct (research_handler_message cfg e) as [Hs Hm]. rewrite Hm, Hs.
    assert (Hfb : should_fallback (research_message cfg e) = true).
    { destruct Hkind as [(c & m & ->)|(m & ->)];
        [apply should_fallback_rate_limited | apply should_fallback_status_429]. }
    rewrite Hfb. simpl.
    by rewrite (_execute_chat_ready cfg up _ _ _ _ _ h _
                  (client_again cfg s h s0 Hc _)).
  - intros Hnone Hkey.
    assert (Hc : client cfg s = (Raise no_api_key, s))
      by (unfold client; by rewrite Hnone, Hkey).
    pose proof (_execute_research_no_client cfg up q eff steps instr s _ _ Hc) as Hr.
    by rewrite (auto_mode_run _ _ _ _ _ _ _ _ _ _ Hr).
Qed.

Lemma rate_limit_always_falls_back_witness :
  auto_mode sample_cfg (research_down (RateLimitError 429 "slow down"))
    "q" "sonar-pro" "medium" 5 "i" initial_state =
  (Ret (chat_outcome "sonar-pro" (fallback_note "Rate limited: slow down")
          (inr sample_chat)),
   log_calls [ ResponsesCreate 0 (research_request "q" "medium" 5 "i");
               ChatCompletionsCreate 0 (chat_request "q" "sonar-pro" "i") ]
     connected_state).
Proof.
  apply (proj1 (rate_limit_always_falls_back sample_cfg
                  (research_down (RateLimitError 429 "slow down"))
                  "q" "sonar-pro" "medium" 5 "i" initial_state)
           0%nat connected_state (RateLimitError 429 "slow down")
           eq_refl eq_refl).
  left. by exists 429, "slow down".
Defined.

(** ** What is sent *)

Lemma resolved_instructions_truthy input :
  PyStr.truthy (resolved_instructions input) = true.
Proof.
  unfold resolved_instructions. destruct (in_instructions input) as [i|]; [|done].
  by destruct (PyStr.truthy i) eqn:Hi.
Qed.

(** X12.  Every request [execute] sends is built from the resolved
    parameters.  A research request always uses the preset "pro-search"
    and always carries the instructions in front of the query, the default
    instructions when the input gives none or an empty string; the bare
    query is never sent.  A chat request carries the same instructions as
    its system message and the query as its user message. *)
Theorem execute_request_shape cfg up input s :
  exists new,
    calls (execute cfg up input s).2 = calls s ++ new /\
    forall c, c ∈ new ->
      (exists h,
         c = ResponsesCreate h
               {| rq_input :=
                    resolved_instructions input +:+ PyStr.nl +:+ PyStr.nl +:+
                    "Research question: " +:+ resolved_query input;
                  rq_preset := "pro-search";
                  rq_effort := resolved_effort cfg input;
                  rq_max_steps := resolved_max_steps cfg input |}) \/
      (exists h,
         c = ChatCompletionsCreate h
               {| cq_model := resolved_model input;
                  cq_system := resolved_instructions input;
                  cq_user := resolved_query input |}).
Proof.
  destruct (execute_state_cases cfg up input s)
    as [Heq | (h & s0 & new & Hc & Heq & _ & Hall)]; rewrite Heq.
  - exists []. rewrite app_nil_r. split; [done|].
    intros c Hin. by apply elem_of_nil in Hin.
  - destruct (log_calls_fields new s0) as (_ & _ & _ & Hcalls).
    destruct (client_step cfg s h s0 Hc)
      as (_ & _ & _ & Hc0 & _).
    exists new. rewrite Hcalls, Hc0. split; [done|].
    intros c Hin. rewrite Forall_forall in Hall.
    destruct (Hall c Hin) as [-> | ->].
    + left. exists h. unfold research_request.
      by rewrite resolved_instructions_truthy.
    + right. by exists h.
Qed.

(** ** Mounting *)



(** A key in the config wins over the environment; an empty one does not. *)
Example mount_key_precedence :
  (_api_key ∘ inst_cfg) <$> (mount (Some "env-key") []
     (Some {| cd_api_key := Some "cfg-key"; cd_preset := None;
              cd_reasoning_effort := None; cd_max_steps := None;
              cd_timeout := None; cd_max_retries := None |})).1 =
    Some (Some "cfg-key") /\
  (_api_key ∘ inst_cfg) <$> (mount (Some "env-key") []
     (Some {| cd_api_key := Some PyStr.empty; cd_preset := None;
              cd_reasoning_effort := None; cd_max_steps := None;
              cd_timeout := None; cd_max_retries := None |})).1 =
    Some (Some "env-key").
Proof. split; reflexivity. Qed.

(** ** The preset variant's [execute] *)

Lemma preset_formatter_agrees r :
  PresetTool._format_structured_output r = _format_structured_output r.
Proof. reflexivity. Qed.

Lemma preset_handler_fails cfg e :
  success (PresetTool.handler cfg e) = false /\
  output (PresetTool.handler cfg e) = PyStr.empty /\
  exists m, tr_error (PresetTool.handler cfg e) = Some m.
Proof. destruct e; simpl; repeat split; by eexists. Qed.

Lemma preset_handler_message cfg e :
  PresetTool.handler cfg e = failure PyStr.empty (preset_message cfg e).
Proof. destruct e as [c m| |c m|c m| | |]; try done; simpl; by destruct m. Qed.

(** [execute] once the parameters are resolved: one request on the
    client's handle, or the failure of the missing key. *)
Lemma preset_make_request_cases cfg up q preset eff steps instr s :
  (forall h s0, PresetTool.client cfg s = (Ret h, s0) ->
     let rq := {| PresetTool.req_input := q; PresetTool.req_preset := preset;
                  PresetTool.req_effort := eff;
                  PresetTool.req_max_steps := steps;
                  PresetTool.req_tools := ["web_search"; "fetch_url"];
                  PresetTool.req_instructions := instr |} in
     PresetTool._make_request cfg up q preset eff steps instr s =
     (match up (PresetTool.st_calls s0) rq with
      | inl e => Raise e
      | inr r => Ret r
      end, preset_log (PresetTool.Create h rq) s0)) /\
  (PresetTool.st_client s = None -> PresetTool.tc_api_key cfg = None ->
     PresetTool._make_request cfg up q preset eff steps instr s =
     (Raise no_api_key, s)).
Proof.
  split.
  - intros h s0 Hc rq. unfold PresetTool._make_request. rewrite Hc.
    fold rq. by destruct (up (PresetTool.st_calls s0) rq).
  - intros Hnone Hkey. unfold PresetTool._make_request, PresetTool.client.
    by rewrite Hnone, Hkey.
Qed.

Lemma preset_client_closed cfg s :
  PresetTool.st_closed (PresetTool.client cfg s).2 = PresetTool.st_closed s.
Proof.
  unfold PresetTool.client.
  destruct (PresetTool.st_client s); [done|].
  by destruct (PresetTool.tc_api_key cfg).
Qed.

Lemma preset_resolved_instructions input :
  (if truthy (PresetTool.p_instructions input)
   then default PyStr.empty (PresetTool.p_instructions input)
   else "Provide thorough, well-researched answers with citations.") =
  match PresetTool.p_instructions input with
  | Some i =>
      if PyStr.truthy i then i
      else "Provide thorough, well-researched answers with citations."
  | None => "Provide thorough, well-researched answers with citations."
  end.
Proof.
  destruct (PresetTool.p_instructions input) as [i|]; [|done].
  simpl. by destruct (PyStr.truthy i).
Qed.

(** X14.  The preset variant's [execute], case by case.  Without a query
    it reports the missing parameter and touches nothing.  With a query and
    a value under ["max_steps"] that [int] rejects, it raises what [int]
    raises and touches nothing.  Otherwise it returns an outcome and does
    not raise.  With a client at hand it sends exactly one request, with
    the query as input, the instructions apart and the two tools web_search
    and fetch_url: the service's answer is returned rendered, in the same
    text as the fallback variant's normaliser and formatter give it, and
    the service's failure is returned as a failed outcome with an empty
    output and the message of that failure.  With no client and no api key
    nothing is sent and the outcome is the failure of the missing key.  In
    every case no client is closed. *)
Theorem preset_execute_single_attempt cfg up input s :
  (truthy (PresetTool.p_query input) = false ->
     PresetTool.execute cfg up input s =
       (Ret (failure PyStr.empty "Missing required parameter: query"), s)) /\
  (truthy (PresetTool.p_query input) = true ->
     (forall e, PresetTool.p_max_steps input = Some (IntRaises e) ->
        PresetTool.execute cfg up input s = (Raise e, s)) /\
     (converts (PresetTool.p_max_steps input) = true ->
        (exists r s', PresetTool.execute cfg up input s = (Ret r, s')) /\
        (forall h s0, PresetTool.client cfg s = (Ret h, s0) ->
           let rq := preset_request cfg input in
           (forall resp, up (PresetTool.st_calls s0) rq = inr resp ->
              PresetTool.execute cfg up input s =
                (Ret (ok (_format_structured_output (_parse_response resp))),
                 preset_log (PresetTool.Create h rq) s0)) /\
           (forall e, up (PresetTool.st_calls s0) rq = inl e ->
              PresetTool.execute cfg up input s =
                (Ret (failure PyStr.empty (preset_message cfg e)),
                 preset_log (PresetTool.Create h rq) s0))) /\
        (PresetTool.st_client s = None -> PresetTool.tc_api_key cfg = None ->
           PresetTool.execute cfg up input s =
             (Ret (failure PyStr.empty
                     "Research failed: api_key must be provided for API calls"),
              s)))) /\
  PresetTool.st_closed (PresetTool.execute cfg up input s).2 =
    PresetTool.st_closed s.
Proof.
  split; [|split].
  - intros Hq. unfold PresetTool.execute. by rewrite Hq.
  - intros Hq. split.
    + intros e He. unfold PresetTool.execute. by rewrite Hq, He.
    + intros Hv.
      assert (Hexec : PresetTool.execute cfg up input s =
        match PresetTool._make_request cfg up
                (PresetTool.req_input (preset_request cfg input))
                (PresetTool.req_preset (preset_request cfg input))
                (PresetTool.req_effort (preset_request cfg input))
                (PresetTool.req_max_steps (preset_request cfg input))
                (PresetTool.req_instructions (preset_request cfg input)) s with
        | (Ret response, s') =>
            (Ret (ok (_format_structured_output (_parse_response response))), s')
        | (Raise e, s') => (Ret (PresetTool.handler cfg e), s')
        end).
      { unfold PresetTool.execute. rewrite Hq, preset_resolved_instructions.
        simpl. by destruct (PresetTool.p_max_steps input) as [[z|e]|]. }
      rewrite Hexec.
      destruct (preset_make_request_cases cfg up
                  (PresetTool.req_input (preset_request cfg input))
                  (PresetTool.req_preset (preset_request cfg input))
                  (PresetTool.req_effort (preset_request cfg input))
                  (PresetTool.req_max_steps (preset_request cfg input))
                  (PresetTool.req_instructions (preset_request cfg input)) s)
        as [Hready Hidle].
      split; [|split].
      * destruct (PresetTool._make_request _ _ _ _ _ _ _ _) as [[r|e] s'];
          by eexists _, _.
      * intros h s0 Hc rq. rewrite (Hready h s0 Hc).
        change {| PresetTool.req_input := _ |} with rq.
        split.
        -- by intros resp ->.
        -- intros e ->. by rewrite preset_handler_message.
      * intros Hnone Hkey. by rewrite (Hidle Hnone Hkey).
  - unfold PresetTool.execute.
    destruct (truthy (PresetTool.p_query input)); simpl; [|done].
    destruct (PresetTool.p_max_steps input) as [[z|e]|]; simpl; try done.
    all: unfold PresetTool._make_request;
      pose proof (preset_client_closed cfg s) as Hcl;
      destruct (PresetTool.client cfg s) as [[h|e] s0]; simpl in *; [|done];
      by destruct (up _ _).
Qed.

Lemma preset_execute_single_attempt_witness :
  PresetTool.execute preset_sample_cfg (fun _ _ => inl too_many_requests)
    (preset_query_input "q") PresetTool.initial_state =
  (Ret (failure PyStr.empty "API error: 429 - Too Many Requests"),
   preset_log
     (PresetTool.Create 0
        (preset_request preset_sample_cfg (preset_query_input "q")))
     (PresetTool.client preset_sample_cfg PresetTool.initial_state).2).
Proof.
  destruct (preset_execute_single_attempt preset_sample_cfg
              (fun _ _ => inl too_many_requests) (preset_query_input "q")
              PresetTool.initial_state) as (_ & Hquery & _).
  destruct (Hquery eq_refl) as (_ & Hconv).
  destruct (Hconv eq_refl) as (_ & Hready & _).
  destruct (Hready 0%nat _ eq_refl) as (_ & Hfail).
  exact (Hfail too_many_requests eq_refl).
Defined.

(** The preset variant on the sample service. *)
Example preset_execute_example :
  PresetTool.execute preset_sample_cfg (fun _ _ => inr sample_response)
    (preset_query_input "q") PresetTool.initial_state =
  (Ret (ok "Answer."),
   {| PresetTool.st_client := Some 0%nat;
      PresetTool.st_constructed := 1%nat;
      PresetTool.st_closed := [];
      PresetTool.st_calls :=
        [ PresetTool.Create 0
            (preset_request preset_sample_cfg (preset_query_input "q")) ] |}).
Proof. vm_compute. reflexivity. Qed.

(** ** The two variants side by side *)

(** [str(n)] never begins with a colon. *)
Lemma of_Z_head c :
  exists a rest, PyStr.of_Z c = String a rest /\ a <> ":"%char.
Proof.
  unfold PyStr.of_Z. destruct (Z.to_int c) as [d|d]; simpl.
  - destruct d; simpl; eexists _, _; (split; [reflexivity | discriminate]).
  - eexists _, _. split; [reflexivity | discriminate].
Qed.

(** X15.  The two variants agree on a successful response and part on
    failures.  Given the same response they render the same text.  Given
    the same failure both report [success = false]; the preset variant
    always leaves the output empty, while the fallback variant repeats the
    message in the output for rate-limit, timeout, invalid-request and
    status errors.  The messages are the same for rate-limit, timeout,
    connection and unclassified failures, and differ for invalid-request
    and status errors ("API error: 400 - m" against "Invalid request: m"
    and "API error 500: m"). *)
Theorem variants_agree_on_success_differ_on_failure cfg pcfg e :
  timeout cfg = PresetTool.tc_timeout pcfg ->
  (forall r,
     PresetTool._format_structured_output (PresetVariant._parse_response r) =
     _format_structured_output (_parse_response r)) /\
  success (research_handler cfg e) = false /\
  success (PresetTool.handler pcfg e) = false /\
  output (PresetTool.handler pcfg e) = PyStr.empty /\
  match e with
  | BadRequestError _ _ | APIStatusError _ _ =>
      tr_error (PresetTool.handler pcfg e) <> tr_error (research_handler cfg e)
  | _ =>
      tr_error (PresetTool.handler pcfg e) = tr_error (research_handler cfg e)
  end /\
  match e with
  | APIConnectionError _ | ValueError _ | OtherException _ =>
      output (research_handler cfg e) = PyStr.empty
  | _ =>
      output (research_handler cfg e) <> PyStr.empty /\
      tr_error (research_handler cfg e) = Some (output (research_handler cfg e))
  end.
Proof.
  intros Ht. split; [done|].
  destruct (research_handler_message cfg e) as [Hs _].
  destruct (preset_handler_fails pcfg e) as (Hps & Hpo & _).
  do 3 (split; [done|]).
  destruct e as [c m|t|c m|c m|t|t|t]; simpl; try (split; done).
  - by rewrite Ht.
  - split; [|by split]. destruct (PyStr.truthy m); discriminate.
  - split.
    + unfold status_error_msg. destruct (of_Z_head c) as (a & rest & Hof & Ha).
      rewrite Hof. destruct (PyStr.truthy m); intros [= H]; by apply Ha.
    + unfold status_error_msg. split; [|done]. by destruct (PyStr.truthy m).
Qed.

Lemma variants_agree_on_success_differ_on_failure_witness :
  tr_error (PresetTool.handler preset_sample_cfg (BadRequestError 400 "bad")) <>
  tr_error (research_handler sample_cfg (BadRequestError 400 "bad")).
Proof.
  apply (variants_agree_on_success_differ_on_failure sample_cfg
           preset_sample_cfg (BadRequestError 400 "bad") eq_refl).
Defined.

(** The messages of the witness. *)
Example bad_request_messages :
  tr_error (PresetTool.handler preset_sample_cfg (BadRequestError 400 "bad")) =
    Some "API error: 400 - bad" /\
  tr_error (research_handler sample_cfg (BadRequestError 400 "bad")) =
    Some "Invalid request: bad".
Proof. split; reflexivity. Qed.
